(** * MCP samples: session-managed streaming transport

    A shallow embedding of the Express handlers of the repository
    (the SSE demo router, the bearer-token middleware and the two
    [/mcp] session routers) together with the properties of the
    specification that concern them. *)

From Stdlib Require Import ZArith Ascii String DecimalString Lia.
From stdpp Require Import base option list strings gmap.

Local Open Scope string_scope.
Local Open Scope Z_scope.

(** ** The JavaScript built-ins the handlers call *)

Module Js.

(** [StrWhiteSpaceChar] restricted to the code units an HTTP header value
    can hold (Node decodes header bytes as latin1): TAB, LF, VT, FF, CR,
    SP and NBSP. *)
Definition isWhiteSpace (c : ascii) : bool :=
  let n := nat_of_ascii c in
  existsb (Nat.eqb n) [9; 10; 11; 12; 13; 32; 160]%nat.

Fixpoint trimStart (s : string) : string :=
  match s with
  | String c s' => if isWhiteSpace c then trimStart s' else s
  | EmptyString => EmptyString
  end.

Definition rev (s : string) : string :=
  string_of_list_ascii (List.rev (list_ascii_of_string s)).

Definition trimEnd (s : string) : string := rev (trimStart (rev s)).

(** [String.prototype.trim] *)
Definition trim (s : string) : string := trimEnd (trimStart s).

(** Truthiness of a string value: every string but the empty one. *)
Definition truthy (s : string) : bool :=
  match s with EmptyString => false | String _ _ => true end.

(** [String.prototype.startsWith] *)
Definition startsWith (s p : string) : bool := String.prefix p s.

(** [String.prototype.split] for a separator that is not empty.  [skip]
    counts the code units of a matched separator still to be dropped and
    [cur] is the piece being collected. *)
Fixpoint split_go (sep : string) (skip : nat) (cur : string) (s : string)
  : list string :=
  match s with
  | EmptyString => [cur]
  | String c s' =>
      match skip with
      | S k => split_go sep k cur s'
      | O =>
          if String.prefix sep s
          then cur :: split_go sep (String.length sep - 1) EmptyString s'
          else split_go sep 0 (cur ++ String c EmptyString) s'
      end
  end.

Definition split (s sep : string) : list string :=
  split_go sep 0 EmptyString s.

Definition digitValue (c : ascii) : option Z :=
  let n := nat_of_ascii c in
  if ((48 <=? n) && (n <=? 57))%nat then Some (Z.of_nat (n - 48)) else None.

(** Value of the longest prefix of decimal digits; [None] when that prefix
    is empty. *)
Fixpoint digits (acc : option Z) (s : string) : option Z :=
  match s with
  | EmptyString => acc
  | String c s' =>
      match digitValue c with
      | Some d => digits (Some (10 * default 0 acc + d)) s'
      | None => acc
      end
  end.

(** [parseInt(s, 10)]: leading white space is skipped, one sign is
    accepted, the longest run of decimal digits is read and anything after
    it is ignored; no digit at all gives [NaN], here [None].

    The result is kept as the exact integer.  The handler below only
    compares it with 0, 5 and 10 and prints values below 10; on those the
    double that JavaScript computes agrees with the integer (doubles are
    exact up to 2^53, rounding is monotone, and [-0] is neither [NaN] nor
    below zero, like 0). *)
Definition parseInt (s : string) : option Z :=
  let t := trimStart s in
  let '(sign, t) :=
    match t with
    | String "-" r => (-1, r)
    | String "+" r => (1, r)
    | _ => (1, t)
    end in
  match digits None t with
  | Some m => Some (sign * m)
  | None => None
  end.

(** A number spliced into a template literal. *)
Definition toString (n : Z) : string := NilEmpty.string_of_int (Z.to_int n).

(** The line feed written as [\n] in the source. *)
Definition nl : string := String (ascii_of_nat 10) EmptyString.

(** The double quote. *)
Definition dq : string := String (ascii_of_nat 34) EmptyString.

End Js.

(** ** The SSE demo router: [server-sent-events.ts] *)

Module Sse.
Import Js.

(** What a handler reads from the Express request. *)
Record Request := mkRequest {
  accepts : string -> bool;          (* request.accepts(type) is truthy *)
  header : string -> option string   (* request.header(name) *)
}.

(** The calls a handler makes on the response and on the timer API, and
    the two things the event loop does to it while it awaits: the timer
    of [sleep] fires, and the connection closes ('close' is emitted on the
    response). *)
Inductive Action :=
| Status (code : Z)
| Send (body : string)
| WriteHead (code : Z) (headers : list (string * string))
| Write (chunk : string)
| End
| SetTimeout (ms : Z)
| Timeout
| Close.

(** The handler's closure variable [aborted], the response's
    [writableEnded] and everything that happened so far. *)
Record State := mkState {
  aborted : bool;
  writableEnded : bool;
  trace : list Action
}.

Definition start : State := mkState false false [].

Definition emit (a : Action) (st : State) : State :=
  mkState (aborted st) (writableEnded st) (trace st ++ [a]).

Definition response_status (code : Z) (st : State) : State :=
  emit (Status code) st.

Definition response_send (body : string) (st : State) : State :=
  emit (Send body) (mkState (aborted st) true (trace st)).

Definition response_writeHead (code : Z) (hs : list (string * string))
  (st : State) : State :=
  emit (WriteHead code hs) st.

Definition response_write (chunk : string) (st : State) : State :=
  emit (Write chunk) st.

Definition response_end (st : State) : State :=
  emit End (mkState (aborted st) true (trace st)).

(** [const cleanup = () => { aborted = true; if (!response.writableEnded)
    response.end(); }] *)
Definition cleanup (st : State) : State :=
  let st := mkState true (writableEnded st) (trace st) in
  if negb (writableEnded st) then response_end st else st.

(** The client disconnects while the handler awaits the sleep of
    iteration [i]. *)
Definition closes (disconnect : option Z) (i : Z) : bool :=
  match disconnect with
  | Some j => i =? j
  | None => false
  end.

(** [await sleep(ms)]: [setTimeout(resolve, ms)] is started and the
    handler is suspended until it fires.  A 'close' that arrives in
    between runs the listener [onClose]; the function keeps no handle on
    the timer, so nothing can clear it. *)
Definition sleep (ms : Z) (closing : bool) (onClose : State -> State)
  (st : State) : State :=
  let st := emit (SetTimeout ms) st in
  let st := if closing then onClose (emit Close st) else st in
  emit Timeout st.

Definition eventStreamHeaders : list (string * string) :=
  [("Content-Type", "text/event-stream");
   ("Cache-Control", "no-cache");
   ("Connection", "keep-alive")].

Definition parity (i : Z) : string :=
  if Z.rem i 2 =? 0 then "even" else "odd".

(** The end-of-stream markers. *)
Definition emptyMessage : string := "data" ++ nl ++ nl.
Definition eom : string := "event: eom" ++ nl ++ "data" ++ nl ++ nl.

(** The three [for] loops count [i] upwards and stop at 10.  They are
    written by recursion on [fuel], one unit per test of [i < 10]; [None]
    stands for fuel running out, which the handlers never let happen (see
    [custom_events_detects], [custom_events_with_id_detects] and
    [data_only_body] below).  The writes of the model never throw, so the
    [catch] blocks of the two handlers that have one are not reached. *)

(** *** [router.get("/data-only")] *)

Fixpoint data_only_loop (fuel : nat) (disconnect : option Z) (i : Z)
  (st : State) : option (Z * State) :=
  match fuel with
  | O => None
  | S fuel =>
      if i <? 10 then
        let st := sleep 1000 (closes disconnect i) id st in
        let st := response_write ("data: Data " ++ toString i ++ nl ++ nl) st in
        data_only_loop fuel disconnect (i + 1) st
      else Some (i, st)
  end.

Definition data_only (request : Request) (disconnect : option Z)
  : option State :=
  let st :=
    response_writeHead 200 [("Content-Type", "text/event-stream")] start in
  let st := response_write (": Let's get started" ++ nl ++ nl) st in
  match data_only_loop 11 disconnect 0 st with
  | None => None
  | Some (_, st) =>
      let st := response_write emptyMessage st in
      Some (response_end st)
  end.

(** *** [router.get("/custom-events")] *)

Fixpoint custom_events_loop (fuel : nat) (disconnect : option Z) (i : Z)
  (st : State) : option (Z * State) :=
  match fuel with
  | O => None
  | S fuel =>
      if i <? 10 then
        if aborted st then Some (i, st) else
        let st := sleep 1000 (closes disconnect i) cleanup st in
        if aborted st then Some (i, st) else
        let st := response_write ("event: " ++ parity i ++ nl) st in
        let st :=
          response_write
            ("data: { " ++ dq ++ "value" ++ dq ++ ": " ++ toString i ++ " }"
             ++ nl ++ nl) st in
        custom_events_loop fuel disconnect (i + 1) st
      else Some (i, st)
  end.

Definition custom_events (request : Request) (disconnect : option Z)
  : option State :=
  if negb (accepts request "text/event-stream") then
    Some (response_send "Not Acceptable" (response_status 406 start))
  else
    let st := response_writeHead 200 eventStreamHeaders start in
    match custom_events_loop 11 disconnect 0 st with
    | None => None
    | Some (_, st) =>
        let st := if negb (aborted st) then response_write eom st else st in
        Some (response_end st)
    end.

(** *** [router.get("/custom-events-with-id")] *)

Fixpoint custom_events_with_id_loop (fuel : nat) (disconnect : option Z)
  (i : Z) (st : State) : option (Z * State) :=
  match fuel with
  | O => None
  | S fuel =>
      if i <? 10 then
        if aborted st then Some (i, st) else
        let st := sleep 1000 (closes disconnect i) cleanup st in
        if aborted st then Some (i, st) else
        let st := response_write ("event: " ++ parity i ++ nl) st in
        let st :=
          response_write
            ("data: { " ++ dq ++ "value" ++ dq ++ ": " ++ toString i ++ " }"
             ++ nl) st in
        let st := response_write ("id: " ++ toString i ++ nl ++ nl) st in
        if i =? 5 then Some (i, st)
        else custom_events_with_id_loop fuel disconnect (i + 1) st
      else Some (i, st)
  end.

Definition invalidLastEventId : string :=
  ": Invalid Last-Event-Id, starting from 0" ++ nl ++ nl.

(** The statements between [writeHead] and the loop: where the stream
    starts. *)
Definition resume (lastEventId : option string) (st : State) : Z * State :=
  match lastEventId with
  | Some h =>
      if truthy h then
        match parseInt h with
        | Some parsed =>
            if parsed <? 0 then (0, response_write invalidLastEventId st)
            else (parsed + 1, st)
        | None => (0, response_write invalidLastEventId st)
        end
      else (0, st)
  | None => (0, st)
  end.

Definition custom_events_with_id (request : Request)
  (disconnect : option Z) : option State :=
  if negb (accepts request "text/event-stream") then
    Some (response_send "Not Acceptable" (response_status 406 start))
  else
    let st := response_writeHead 200 eventStreamHeaders start in
    let lastEventId := header request "Last-Event-Id" in
    let '(i, st) := resume lastEventId st in
    match
      custom_events_with_id_loop (S (Z.to_nat (10 - i))) disconnect i st
    with
    | None => None
    | Some (i, st) =>
        let st :=
          if (i =? 10) && negb (aborted st) then response_write eom st
          else st in
        Some (response_end st)
    end.

(** *** What a client sees of a run *)

Definition chunks (t : list Action) : list string :=
  omap (fun a => match a with Write c => Some c | _ => None end) t.

(** The status line: the first [writeHead] or [status] call. *)
Definition statusCode (t : list Action) : option Z :=
  head (omap (fun a => match a with
                       | WriteHead c _ | Status c => Some c
                       | _ => None
                       end) t).

(** The id carried by a chunk of the form [id: <n>\n\n]. *)
Definition idOfChunk (chunk : string) : option Z :=
  if startsWith chunk "id: " then
    match parseInt (String.substring 4 (String.length chunk - 4) chunk) with
    | Some n =>
        if String.eqb chunk ("id: " ++ toString n ++ nl ++ nl) then Some n
        else None
    | None => None
    end
  else None.

Definition eventIds (t : list Action) : list Z := omap idOfChunk (chunks t).

(** The part of the trace that precedes the first [response.end()]. *)
Fixpoint beforeEnd (t : list Action) : list Action :=
  match t with
  | [] => []
  | End :: _ => []
  | a :: t' => a :: beforeEnd t'
  end.

(** The last chunk written before the response was ended. *)
Definition finalFrame (t : list Action) : option string :=
  last (chunks (beforeEnd t)).

Definition isClose (a : Action) : bool :=
  match a with Close => true | _ => false end.
Definition isWrite (a : Action) : bool :=
  match a with Write _ => true | _ => false end.
Definition isTimeout (a : Action) : bool :=
  match a with Timeout => true | _ => false end.

(** The client disconnected during the run. *)
Definition disconnected (t : list Action) : bool := existsb isClose t.

(** The actions that follow the first 'close'. *)
Fixpoint afterClose (t : list Action) : list Action :=
  match t with
  | [] => []
  | Close :: t' => t'
  | _ :: t' => afterClose t'
  end.

(** [z, z+1, ..., z+n-1] *)
Fixpoint idsFrom (z : Z) (n : nat) : list Z :=
  match n with
  | O => []
  | S n => z :: idsFrom (z + 1) n
  end.

(** The ids [lo .. hi] (empty when [hi < lo]). *)
Definition idRange (lo hi : Z) : list Z := idsFrom lo (Z.to_nat (hi - lo + 1)).

(** Nothing is written once the connection has closed. *)
Definition abortsEmission (t : list Action) : bool :=
  forallb (fun a => negb (isWrite a)) (afterClose t).

(** No timer of the stream runs to completion once the connection has
    closed. *)
Definition timersCancelled (t : list Action) : bool :=
  forallb (fun a => negb (isTimeout a)) (afterClose t).

(** The timer that was pending when the connection closed fires all the
    same. *)
Definition timerStillFires (t : list Action) : bool :=
  existsb isTimeout (afterClose t).

(** How a handler that listens for 'close' stands after a run: its
    [aborted] flag tells whether the client disconnected, nothing was
    written after the disconnect, and a disconnect left the response ended
    while the timer that was pending fired all the same. *)
Definition detectsDisconnect (st : State) : Prop :=
  aborted st = disconnected (trace st)
  /\ abortsEmission (trace st) = true
  /\ (disconnected (trace st) = true ->
      writableEnded st = true /\ timerStillFires (trace st) = true).

Definition isEnd (a : Action) : bool :=
  match a with End => true | _ => false end.

(** [response.end()] was called. *)
Definition hasEnd (t : list Action) : bool := existsb isEnd t.

(** The trace without the 'close' of the connection: what the handler
    itself did. *)
Definition ownActions (t : list Action) : list Action :=
  List.filter (fun a => negb (isClose a)) t.

(** The index [/custom-events-with-id] starts its loop with. *)
Definition startIndex (request : Request) : Z :=
  fst (resume (header request "Last-Event-Id") start).

(** A run of [/custom-events-with-id] ends normally when the client did
    not disconnect and every event from the start index up to the last
    one, 9, was delivered. *)
Definition endsNormally (request : Request) (st : State) : Prop :=
  disconnected (trace st) = false
  /\ eventIds (trace st) = idRange (startIndex request) 9.

(** Everything [/data-only] has to say: the opening comment, the ten
    messages and the empty message that marks the end. *)
Definition dataOnlyBody : list string :=
  [(": Let's get started" ++ nl ++ nl)%string]
  ++ map (fun i => ("data: Data " ++ toString i ++ nl ++ nl)%string)
       (idRange 0 9)
  ++ [emptyMessage].

(** The handler's own test of the cursor: the [Last-Event-Id] header is
    absent, or [parseInt] reads no number from it, or the number it reads
    is below 0.  A header that only begins with a number passes the
    test. *)
Definition noUsableCursor (lastEventId : option string) : Prop :=
  match lastEventId with
  | None => True
  | Some h => parseInt h = None \/ exists n, parseInt h = Some n /\ n < 0
  end.

(** As the specification words it.  A header is numeric when it is a
    decimal integer as a whole: an optional minus sign and then digits
    only, at least one of them. *)
Definition isDigit (c : ascii) : bool :=
  match digitValue c with
  | Some _ => true
  | None => false
  end.

Definition allDigits (s : string) : bool :=
  truthy s && forallb isDigit (list_ascii_of_string s).

Definition numeric (h : string) : bool :=
  match h with
  | String "-" r => allDigits r
  | _ => allDigits h
  end.

(** The header is present but non-numeric, or negative. *)
Definition nonNumericOrNegative (h : string) : Prop :=
  numeric h = false
  \/ (numeric h = true /\ exists n, parseInt h = Some n /\ n < 0).

(** A request that accepts event streams and carries the given
    [Last-Event-Id]. *)
Definition get_with (lastEventId : option string) : Request :=
  mkRequest (fun _ => true)
    (fun name => if String.eqb name "Last-Event-Id" then lastEventId else None).

End Sse.

(** ** JSON values: request bodies, token claims, response bodies *)

Module Json.

#[warnings="-register-all"]
Inductive t :=
| Null
| Bool (b : bool)
| Num (n : Z)
| Str (s : string)
| Arr (items : list t)
| Obj (fields : list (string * t)).

(** Truthiness of a value that may be [undefined] ([None]). *)
Definition truthy (v : option t) : bool :=
  match v with
  | None | Some Null => false
  | Some (Bool b) => b
  | Some (Num n) => negb (n =? 0)
  | Some (Str s) => Js.truthy s
  | Some (Arr _) | Some (Obj _) => true
  end.

Fixpoint assoc (name : string) (fields : list (string * t)) : option t :=
  match fields with
  | [] => None
  | (k, v) :: rest => if String.eqb k name then Some v else assoc name rest
  end.

(** The read [v.name] of a property that no built-in prototype defines
    (the handlers read [method] only): the field of an object, and
    [undefined] on every other value. *)
Definition member (name : string) (v : t) : option t :=
  match v with
  | Obj fields => assoc name fields
  | _ => None
  end.

End Json.

(** ** Express requests and responses of the [/mcp] routers *)

Module Http.

Inductive Method := GET | POST | DELETE.

(** The request, with the three properties the middleware adds to it. *)
Record Request := mkRequest {
  method : Method;
  headers : string -> option string;
  body : option Json.t;
  token : option string;
  tokenClaims : option Json.t;
  isAuthenticated : option bool
}.

Inductive Payload :=
| NoBody                      (* .end() *)
| Text (s : string)           (* .send(s) *)
| JsonBody (j : Json.t)       (* .json(j) *)
| Stringified (j : Json.t).   (* .end(JSON.stringify(j)) *)

Record Response := mkResponse {
  status : Z;
  resHeaders : list (string * string);
  payload : Payload
}.

End Http.

(** ** [auth-context.ts] *)

Module AuthContext.

Record AuthContext := mkAuthContext {
  token : option string;
  tokenClaims : option Json.t;
  isAuthenticated : bool;
  sessionId : option string
}.

(** Code that may call [authContextStorage.getStore()]: the store of the
    chain it runs in is handed to it. *)
Definition Scoped (T : Type) : Type := option AuthContext -> T.

Definition runWithAuthContext {T : Type} (context : AuthContext)
  (fn : Scoped T) : T :=
  fn (Some context).

Definition getAuthContext : Scoped (option AuthContext) :=
  fun store => store.

(** [context?.isAuthenticated ?? false] *)
Definition isAuthenticatedNow : Scoped bool :=
  fun store =>
    match getAuthContext store with
    | Some context => isAuthenticated context
    | None => false
    end.

Definition getTokenClaims : Scoped (option Json.t) :=
  fun store =>
    match getAuthContext store with
    | Some context => tokenClaims context
    | None => None
    end.

End AuthContext.

(** ** [scalekit-config.ts] *)

Module ScalekitConfig.
Import Js.

(** The environment variables the resource id is computed from. *)
Record Env := mkEnv {
  PORT : option string;
  NODE_ENV : option string;
  MCP_RESOURCE_ID : string
}.

Definition devResourceId (env : Env) : string :=
  "http://localhost:"
  ++ match PORT env with
     | Some p => if truthy p then p else "3000"
     | None => "3000"
     end
  ++ "/mcp".

Definition resourceId (env : Env) : string :=
  match NODE_ENV env with
  | Some mode =>
      if String.eqb mode "production" then MCP_RESOURCE_ID env
      else devResourceId env
  | None => devResourceId env
  end.

(** The URL of the protected-resource metadata document. *)
Definition resourceMetadataUrl (env : Env) : string :=
  resourceId env ++ "/.well-known/oauth-protected-resource".

Definition WWW_AUTHENTICATE_HEADER (env : Env) : string * string :=
  ("WWW-Authenticate",
   "Bearer realm=" ++ dq ++ "OAuth" ++ dq ++ ", resource_metadata=" ++ dq
   ++ resourceMetadataUrl env ++ dq).

End ScalekitConfig.

(** ** [auth-middleware.ts] *)

Module AuthMiddleware.
Import Js Http ScalekitConfig.

Inductive Result :=
| Next (req : Request)        (* next() was called *)
| Respond (res : Response).   (* the middleware answered itself *)

(** [authHeader?.startsWith('Bearer ') ?
     authHeader.split('Bearer ')[1]?.trim() : null] *)
Definition bearerToken (authHeader : option string) : option string :=
  match authHeader with
  | Some h =>
      if startsWith h "Bearer "
      then trim <$> (split h "Bearer " !! 1%nat)
      else None
  | None => None
  end.

Section Middleware.
(** [scalekit.validateToken(token, { audience })]: the claims of a token
    it accepts, [None] when it rejects. *)
Variable validateToken : string -> list string -> option Json.t.
Variable env : Env.

Definition unauthorized : Result :=
  Respond (mkResponse 401 [WWW_AUTHENTICATE_HEADER env] NoBody).

Definition requiredAuthMiddleware (req : Request) : Result :=
  match bearerToken (headers req "authorization") with
  | Some tok =>
      if truthy tok then
        match validateToken tok [resourceId env] with
        | Some claims =>
            Next (mkRequest (method req) (headers req) (body req)
                    (Some tok) (Some claims) (Some true))
        | None => unauthorized
        end
      else unauthorized
  | None => unauthorized
  end.
End Middleware.

End AuthMiddleware.

(** ** The transports and their registry *)

Module Registry.

(** A [StreamableHTTPServerTransport] as the routers see it: its
    [sessionId] property, undefined until the session is initialized. *)
Record Transport := mkTransport { sessionId : option string }.

(** [const transports = {}]: the own properties of the object. *)
Abbreviation t := (gmap string Transport).

(** The property names every object literal inherits from
    [Object.prototype]; each of them reads as a function or an object. *)
Definition objectPrototypeKeys : list string :=
  ["constructor"; "hasOwnProperty"; "isPrototypeOf";
   "propertyIsEnumerable"; "toLocaleString"; "toString"; "valueOf";
   "__proto__"; "__defineGetter__"; "__defineSetter__";
   "__lookupGetter__"; "__lookupSetter__"].

(** What [transports[key]] evaluates to when it is not [undefined]. *)
Inductive Value :=
| Own (tr : Transport)
| Inherited (name : string).

(** [transports[key]]: an own property, else a property of the
    prototype, else [undefined]. *)
Definition get (transports : t) (key : string) : option Value :=
  match transports !! key with
  | Some tr => Some (Own tr)
  | None =>
      if bool_decide (key ∈ objectPrototypeKeys) then Some (Inherited key)
      else None
  end.

(** [transports[key] = tr], for the keys [randomUUID()] returns. *)
Definition set (key : string) (tr : Transport) (transports : t) : t :=
  <[key := tr]> transports.

(** [delete transports[key]] *)
Definition remove (key : string) (transports : t) : t :=
  delete key transports.

(** What one call of [transport.handleRequest] did, as far as the routers
    can tell: the session id it generated and passed to
    [onsessioninitialized], whether it closed the transport (which runs
    [onclose]), whether it threw, whether it had sent headers by then. *)
Record SdkRun := mkSdkRun {
  initialized : option string;
  closed : bool;
  threw : bool;
  headersSent : bool
}.

(** A session is live when the registry holds a transport under its id. *)
Definition live (transports : t) (sid : string) : Prop :=
  is_Some (transports !! sid).

(** The registry holds nothing under the transport's session id. *)
Definition unregistered (tr : Transport) (transports : t) : Prop :=
  forall sid, sessionId tr = Some sid -> ¬ live transports sid.

(** Every transport is stored under its own session id. *)
Definition wf (transports : t) : Prop :=
  forall sid tr, transports !! sid = Some tr -> sessionId tr = Some sid.

End Registry.

(** What a router did with one request. *)

Module Outcome.
Import Http Registry.

(** One call of [transport.handleRequest]: the transport, and the auth
    context the call ran in ([None] when the router sets none up). *)
Record Delivery := mkDelivery {
  target : Transport;
  context : option AuthContext.AuthContext
}.

Record t := mk {
  transports : Registry.t;        (* the registry afterwards *)
  response : option Response;     (* what the router itself answered *)
  delivered : list Delivery;      (* the calls of handleRequest it made *)
  uncaught : bool                 (* an exception left the handler *)
}.

End Outcome.

(** ** [mcp-express-handlers.ts] and its [app] *)

Module DemoServer.
Import Js Http Registry.

Definition NO_VALID_SESSION_ID_ERROR : Z * string :=
  (-32000, "Bad Request: No valid session ID provided").
Definition INTERNAL_SERVER_ERROR : Z * string :=
  (-32603, "Internal server error").
Definition METHOD_NOT_ALLOWED_ERROR : Z * string :=
  (-32000, "Method not allowed").

Definition getJsonRpcError (error : Z * string) : Json.t :=
  Json.Obj
    [("jsonrpc", Json.Str "2.0");
     ("error", Json.Obj [("code", Json.Num (fst error));
                         ("message", Json.Str (snd error))]);
     ("id", Json.Null)].

(** [transport.onclose] *)
Definition onclose (tr : Transport) (transports : Registry.t) : Registry.t :=
  match sessionId tr with
  | Some sid =>
      if truthy sid && bool_decide (is_Some (get transports sid))
      then remove sid transports
      else transports
  | None => transports
  end.

Section Handlers.
(** The SDK: [isInitializeRequest], and what [handleRequest] does on a
    transport for a request. *)
Variable isInitializeRequest : option Json.t -> bool.
Variable sdk : Transport -> Request -> SdkRun.

(** [await transport.handleRequest(req, res, req.body)] inside the
    [try]: the callbacks the SDK fires update the registry; an exception
    is caught and answered 500 unless headers were sent. *)
Definition handleRequest (tr : Transport) (req : Request)
  (transports : Registry.t) : Outcome.t :=
  let run := sdk tr req in
  let tr' :=
    match initialized run with
    | Some sid => mkTransport (Some sid)
    | None => tr
    end in
  let transports :=
    match initialized run with
    | Some sid => set sid tr' transports
    | None => transports
    end in
  let transports :=
    if closed run then onclose tr' transports else transports in
  Outcome.mk transports
    (if threw run && negb (headersSent run)
     then Some (mkResponse 500 [] (JsonBody (getJsonRpcError INTERNAL_SERVER_ERROR)))
     else None)
    [Outcome.mkDelivery tr None]
    false.

(** Calling [handleRequest] on a value that is no transport throws a
    [TypeError] before anything is sent. *)
Definition notATransport (transports : Registry.t) : Outcome.t :=
  Outcome.mk transports
    (Some (mkResponse 500 [] (JsonBody (getJsonRpcError INTERNAL_SERVER_ERROR))))
    [] false.

Definition sessionIdOf (req : Request) : option string :=
  match headers req "mcp-session-id" with
  | Some h => if truthy h then Some h else None
  | None => None
  end.

Definition mcpPostHandler (transports : Registry.t) (req : Request)
  : Outcome.t :=
  let sessionId := sessionIdOf req in
  match sessionId ≫= get transports with
  | Some (Own tr) => handleRequest tr req transports
  | Some (Inherited _) => notATransport transports
  | None =>
      if negb (bool_decide (is_Some sessionId))
         && isInitializeRequest (body req)
      then handleRequest (mkTransport None) req transports
      else
        Outcome.mk transports
          (Some (mkResponse 400 []
                   (JsonBody (getJsonRpcError NO_VALID_SESSION_ID_ERROR))))
          [] false
  end.

(** [mcpGetHandler] has no [try]: an exception leaves the handler. *)
Definition mcpGetHandler (transports : Registry.t) (req : Request)
  : Outcome.t :=
  match sessionIdOf req ≫= get transports with
  | None =>
      Outcome.mk transports
        (Some (mkResponse 400 [] (Text "Invalid or missing session ID")))
        [] false
  | Some (Own tr) =>
      let o := handleRequest tr req transports in
      Outcome.mk (Outcome.transports o) None (Outcome.delivered o)
        (threw (sdk tr req))
  | Some (Inherited _) => Outcome.mk transports None [] true
  end.

Definition mcpMethodNotAllowedHandler (transports : Registry.t)
  (req : Request) : Outcome.t :=
  Outcome.mk transports
    (Some (mkResponse 405 []
             (Stringified (getJsonRpcError METHOD_NOT_ALLOWED_ERROR))))
    [] false.

(** [app.post('/mcp', ...); app.get('/mcp', ...); app.delete('/mcp', ...)] *)
Definition app (transports : Registry.t) (req : Request) : Outcome.t :=
  match method req with
  | POST => mcpPostHandler transports req
  | GET => mcpGetHandler transports req
  | DELETE => mcpMethodNotAllowedHandler transports req
  end.
End Handlers.

End DemoServer.

(** ** [4-auth/src/lib/streamable-http.ts] *)

Module AuthServer.
Import Js Http Registry.

(** [transport.onclose] *)
Definition onclose (tr : Transport) (transports : Registry.t) : Registry.t :=
  match sessionId tr with
  | Some sid => if truthy sid then remove sid transports else transports
  | None => transports
  end.

Definition noValidSessionId : Response :=
  mkResponse 400 []
    (JsonBody
       (Json.Obj
          [("jsonrpc", Json.Str "2.0");
           ("error",
            Json.Obj
              [("code", Json.Num (-32000));
               ("message",
                Json.Str "Bad Request: No valid session ID provided")]);
           ("id", Json.Null)])).

Section Server.
Variable validateToken : string -> list string -> option Json.t.
Variable env : ScalekitConfig.Env.
Variable sdk : Transport -> Request -> SdkRun.

(** The auth context both handlers build from the request. *)
Definition authContextOf (req : Request) (sessionId : option string)
  : AuthContext.AuthContext :=
  AuthContext.mkAuthContext (token req) (tokenClaims req)
    (default false (isAuthenticated req)) sessionId.

(** [await transport.handleRequest(...)] under [runWithAuthContext]:
    the store of the call is recorded with the delivery; the callbacks
    the SDK fires update the registry; an exception leaves the
    handler. *)
Definition handleRequest (tr : Transport) (req : Request)
  (transports : Registry.t) : AuthContext.Scoped Outcome.t :=
  fun store =>
    let run := sdk tr req in
    let tr' :=
      match initialized run with
      | Some sid => mkTransport (Some sid)
      | None => tr
      end in
    let transports :=
      match initialized run with
      | Some sid => set sid tr' transports
      | None => transports
      end in
    let transports :=
      if closed run then onclose tr' transports else transports in
    Outcome.mk transports None
      [Outcome.mkDelivery tr (AuthContext.getAuthContext store)]
      (threw run).

Definition sessionIdOf (req : Request) : option string :=
  match headers req "mcp-session-id" with
  | Some h => if truthy h then Some h else None
  | None => None
  end.

(** [req.body && req.body.method === 'initialize'] *)
Definition asksInitialize (req : Request) : bool :=
  Json.truthy (body req)
  && match body req ≫= Json.member "method" with
     | Some (Json.Str m) => String.eqb m "initialize"
     | _ => false
     end.

(** [app.post('/mcp', ...)] *)
Definition post (transports : Registry.t) (req : Request) : Outcome.t :=
  let sessionId := headers req "mcp-session-id" in
  match sessionIdOf req ≫= get transports with
  | Some (Own tr) =>
      AuthContext.runWithAuthContext (authContextOf req sessionId)
        (handleRequest tr req transports)
  | Some (Inherited _) => Outcome.mk transports None [] true
  | None =>
      if negb (bool_decide (is_Some (sessionIdOf req)))
         && asksInitialize req
      then
        AuthContext.runWithAuthContext (authContextOf req sessionId)
          (handleRequest (mkTransport None) req transports)
      else Outcome.mk transports (Some noValidSessionId) [] false
  end.

(** [handleSessionRequest], registered for GET and DELETE. *)
Definition handleSessionRequest (transports : Registry.t)
  (req : Request) : Outcome.t :=
  let sessionId := headers req "mcp-session-id" in
  match sessionIdOf req ≫= get transports with
  | None =>
      Outcome.mk transports
        (Some (mkResponse 400 [] (Text "Invalid or missing session ID")))
        [] false
  | Some (Own tr) =>
      AuthContext.runWithAuthContext (authContextOf req sessionId)
        (handleRequest tr req transports)
  | Some (Inherited _) => Outcome.mk transports None [] true
  end.

(** [app.use('/mcp', requiredAuthMiddleware)] followed by the three
    routes of [/mcp]. *)
Definition app (transports : Registry.t) (req : Request) : Outcome.t :=
  match AuthMiddleware.requiredAuthMiddleware validateToken env req with
  | AuthMiddleware.Respond res => Outcome.mk transports (Some res) [] false
  | AuthMiddleware.Next req =>
      match method req with
      | POST => post transports req
      | GET | DELETE => handleSessionRequest transports req
      end
  end.
End Server.

End AuthServer.

(** ** Requests, collaborators and outcomes the properties speak of *)

Module Scenario.
Import Js Http Registry.

(** A request to [/mcp] with the given headers and JSON-RPC method. *)
Definition rpc (verb : Method) (sessionId authorization : option string)
  (rpcMethod : string) : Request :=
  mkRequest verb
    (fun name =>
       if String.eqb name "mcp-session-id" then sessionId
       else if String.eqb name "authorization" then authorization
       else None)
    (Some (Json.Obj [("jsonrpc", Json.Str "2.0"); ("id", Json.Num 1);
                     ("method", Json.Str rpcMethod)]))
    None None None.

(** [POST /mcp] asking for the tool list under a session id. *)
Definition listTools (sessionId : option string) : Request :=
  rpc POST sessionId None "tools/list".

(** An [isInitializeRequest] that looks at the method only. *)
Definition initializeByMethod (body : option Json.t) : bool :=
  match body ≫= Json.member "method" with
  | Some (Json.Str m) => String.eqb m "initialize"
  | _ => false
  end.

(** An SDK transport that closes on DELETE and otherwise only answers. *)
Definition closesOnDelete (tr : Transport) (req : Request) : SdkRun :=
  match method req with
  | DELETE => mkSdkRun None true false true
  | _ => mkSdkRun None false false true
  end.

(** A token service that accepts the one token [good-token]. *)
Definition acceptsGoodToken (tok : string) (audience : list string)
  : option Json.t :=
  if String.eqb tok "good-token"
  then Some (Json.Obj [("sub", Json.Str "alice")])
  else None.

Definition devEnv : ScalekitConfig.Env :=
  ScalekitConfig.mkEnv None None "https://mcp.example.com/mcp".

(** A registry with one live session. *)
Definition sampleSession : string := "abd02098-7c14-4b4b-9b3c-a7a1c99e8997".
Definition sampleTransport : Transport := mkTransport (Some sampleSession).
Definition oneSession : Registry.t := {[ sampleSession := sampleTransport ]}.

(** The session id of the request is missing, or it names no live
    transport. *)
Definition noLiveSession (transports : Registry.t) (req : Request)
  : Prop :=
  match headers req "mcp-session-id" with
  | Some sid => ¬ live transports sid
  | None => True
  end.

(** The session [sid] was terminated by the request: it went to the
    session's transport and the registry no longer holds the id. *)
Definition sessionTerminated (sid : string) (tr : Transport)
  (o : Outcome.t) : Prop :=
  (exists ctx, Outcome.delivered o = [Outcome.mkDelivery tr ctx])
  /\ ¬ live (Outcome.transports o) sid.

(** The request carries no [Authorization] header, or the bearer token in
    it fails validation for the audience. *)
Definition badCredentials
  (validateToken : string -> list string -> option Json.t)
  (env : ScalekitConfig.Env) (req : Request) : Prop :=
  headers req "authorization" = None
  \/ exists tok,
      AuthMiddleware.bearerToken (headers req "authorization") = Some tok
      /\ validateToken tok [ScalekitConfig.resourceId env] = None.

(** The request carries a bearer token that validates for the audience. *)
Definition goodCredentials
  (validateToken : string -> list string -> option Json.t)
  (env : ScalekitConfig.Env) (req : Request) (tok : string)
  (claims : Json.t) : Prop :=
  AuthMiddleware.bearerToken (headers req "authorization") = Some tok
  /\ truthy tok = true
  /\ validateToken tok [ScalekitConfig.resourceId env] = Some claims.

(** [inner] occurs in [outer]. *)
Definition mentions (outer inner : string) : Prop :=
  exists before after, outer = (before ++ inner ++ after)%string.

End Scenario.

(** ** Runs of the SSE router as a client lives them *)

Module SseRuns.
Import Js Sse.

(** The two chunks of event [i] on [/custom-events]. *)
Definition customEvent (i : Z) : list string :=
  [("event: " ++ parity i ++ nl)%string;
   ("data: { " ++ dq ++ "value" ++ dq ++ ": " ++ toString i ++ " }"
    ++ nl ++ nl)%string].

(** The chunks of the events [0 .. n-1]. *)
Definition customEventsUpTo (n : nat) : list string :=
  concat (map customEvent (idsFrom 0 n)).

(** The number of pauses of a ten-event stream that the client sat
    through: all ten, unless it left during the pause of an iteration. *)
Definition completedPauses (disconnect : option Z) : nat :=
  match disconnect with
  | Some j => if (0 <=? j) && (j <? 10) then Z.to_nat j else 10%nat
  | None => 10%nat
  end.

(** The client left during one of the ten pauses. *)
Definition leftEarly (disconnect : option Z) : bool :=
  match disconnect with
  | Some j => (0 <=? j) && (j <? 10)
  | None => false
  end.

(** What an [EventSource] sends when it reconnects: the id of the last
    event it received, as the server wrote it. *)
Definition reconnect (lastSeen : Z) : Request :=
  get_with (Some (toString lastSeen)).

(** The status codes written with [writeHead] or [status], in order. *)
Definition statusLines (t : list Action) : list Z :=
  omap (fun a => match a with
                 | WriteHead c _ | Status c => Some c
                 | _ => None
                 end) t.

(** The response was ended by the last thing the handler did. *)
Definition endedLast (st : State) : Prop :=
  writableEnded st = true
  /\ (last (trace st) = Some End
      \/ exists body, last (trace st) = Some (Send body)).

End SseRuns.

(** ** The Express app that mounts the SSE router: the port it listens on *)

Module SseApp.
Import Js.

(** [process.env["PORT"] ? parseInt(process.env["PORT"], 10) : 3000],
    then the range check; [None] stands for [process.exit(1)]. *)
Definition listenPort (env_PORT : option string) : option Z :=
  let port :=
    match env_PORT with
    | Some p => if truthy p then parseInt p else Some 3000
    | None => Some 3000
    end in
  match port with
  | None => None
  | Some n => if (n <? 1) || (65535 <? n) then None else Some n
  end.

End SseApp.

(** ** Shapes of header values *)

Module Shapes.
Import Js.

(** No code unit of the string is white space. *)
Definition noSpace (s : string) : bool :=
  forallb (fun c => negb (isWhiteSpace c)) (list_ascii_of_string s).

(** Every code unit of the string is white space. *)
Definition blank (s : string) : bool :=
  forallb isWhiteSpace (list_ascii_of_string s).

End Shapes.

(** ** [scalekit-config.ts], from the process environment *)

Module ScalekitEnv.
Import Js.

Definition requiredEnvVars : list string :=
  ["SCALEKIT_ENVIRONMENT_URL"; "SCALEKIT_AUTH_SERVER"; "SCALEKIT_CLIENT_ID";
   "SCALEKIT_CLIENT_SECRET"; "MCP_RESOURCE_ID"; "MCP_SCOPES"].

(** [process.env[varName]] is truthy. *)
Definition isSet (penv : string -> option string) (varName : string) : bool :=
  match penv varName with
  | Some v => truthy v
  | None => false
  end.

(** [requiredEnvVars.filter(varName => !process.env[varName])] *)
Definition missingEnvVars (penv : string -> option string) : list string :=
  List.filter (fun varName => negb (isSet penv varName)) requiredEnvVars.

Record Config := mkConfig {
  environmentUrl : string;
  authServer : string;
  clientId : string;
  clientSecret : string;
  audience : string;
  resourceId : string;
  resourceMetadata : option string;
  supportedScopes : list string
}.

(** The variables the resource id is computed from. *)
Definition envOf (penv : string -> option string) : ScalekitConfig.Env :=
  ScalekitConfig.mkEnv (penv "PORT") (penv "NODE_ENV")
    (default EmptyString (penv "MCP_RESOURCE_ID")).

(** The module body: the check of the required variables, which throws
    an [Error] with the message on the left, then [SCALEKIT_CONFIG]. *)
Definition load (penv : string -> option string) : string + Config :=
  let missing := missingEnvVars penv in
  if (0 <? length missing)%nat then
    inl ("Missing required environment variables: "
         ++ String.concat ", " missing)%string
  else
    inr (mkConfig
           (default EmptyString (penv "SCALEKIT_ENVIRONMENT_URL"))
           (default EmptyString (penv "SCALEKIT_AUTH_SERVER"))
           (default EmptyString (penv "SCALEKIT_CLIENT_ID"))
           (default EmptyString (penv "SCALEKIT_CLIENT_SECRET"))
           (default EmptyString (penv "MCP_RESOURCE_ID"))
           (ScalekitConfig.resourceId (envOf penv))
           (penv "MCP_RESOURCE_METADATA")
           (split (default EmptyString (penv "MCP_SCOPES")) " ")).

End ScalekitEnv.

(** ** The public routes of [4-auth/src/lib/streamable-http.ts] *)

Module AuthServerPublic.
Import Js Http Registry.

(** [handleOAuthProtectedResource]: the body of the metadata document. *)
Definition handleOAuthProtectedResource (config : ScalekitEnv.Config)
  : Json.t :=
  Json.Obj
    [("authorization_servers",
      Json.Arr [Json.Str (ScalekitEnv.authServer config)]);
     ("bearer_methods_supported", Json.Arr [Json.Str "header"]);
     ("resource", Json.Str (ScalekitEnv.resourceId config));
     ("resource_documentation",
      Json.Str (ScalekitEnv.resourceId config ++ "/docs")%string);
     ("scopes_supported",
      Json.Arr (map Json.Str (ScalekitEnv.supportedScopes config)))].

(** [app.get('/health', ...)]; [timestamp] is [new Date().toISOString()]. *)
Definition health (serverName serverVersion timestamp : string)
  (config : ScalekitEnv.Config) (transports : Registry.t) : Json.t :=
  Json.Obj
    [("status", Json.Str "healthy");
     ("timestamp", Json.Str timestamp);
     ("activeSessions", Json.Num (Z.of_nat (size transports)));
     ("serverName", Json.Str serverName);
     ("serverVersion", Json.Str serverVersion);
     ("resourceId", Json.Str (ScalekitEnv.resourceId config));
     ("authServer", Json.Str (ScalekitEnv.authServer config))].

(** The two paths [handleOAuthProtectedResource] is registered under. *)
Definition metadataRoutes : list string :=
  ["/.well-known/oauth-protected-resource/mcp";
   "/mcp/.well-known/oauth-protected-resource"].

(** [process.env.PORT || port], as it is printed in a URL. *)
Definition listenPORT (env_PORT : option string) (port : Z) : string :=
  match env_PORT with
  | Some p => if truthy p then p else toString port
  | None => toString port
  end.

End AuthServerPublic.

(** ** The [get_token_claims] tool of the server behind
    [createStreamableHTTPServer] *)

Module Tools.
Import Js.

(** [structuredContent] of the tool: [claims] may be left out or
    undefined. *)
Record Structured := mkStructured {
  claims : option Json.t;
  isAuthenticated : bool
}.

Record ToolResult := mkToolResult {
  text : string;
  structuredContent : Structured
}.

Section Tool.
(** [JSON.stringify(claims, null, 2)] *)
Variable stringify : option Json.t -> string.

Definition get_token_claims : AuthContext.Scoped ToolResult :=
  fun store =>
    if negb (AuthContext.isAuthenticatedNow store) then
      mkToolResult "Not authenticated. No token claims available."
        (mkStructured None false)
    else
      let claims := AuthContext.getTokenClaims store in
      mkToolResult ("Token Claims:" ++ nl ++ stringify claims)%string
        (mkStructured claims true).
End Tool.

End Tools.

(** ** [mcp-server.ts] of the demo server *)

Module McpServer.
Import Js.








End McpServer.

(** ** A sample SDK and process environment *)

Module Samples.
Import Js Http Registry.

(** An SDK transport that starts the session [sampleSession] when an
    uninitialized transport gets an [initialize] request, closes on
    DELETE and otherwise only answers. *)
Definition sampleSdk (tr : Transport) (req : Request) : SdkRun :=
  match method req, sessionId tr with
  | DELETE, _ => mkSdkRun None true false true
  | POST, None =>
      if Scenario.initializeByMethod (body req)
      then mkSdkRun (Some Scenario.sampleSession) false false true
      else mkSdkRun None false false true
  | _, _ => mkSdkRun None false false true
  end.

Definition sampleProcessEnv (name : string) : option string :=
  if String.eqb name "SCALEKIT_ENVIRONMENT_URL"
  then Some "https://pony.scalekit.dev"
  else if String.eqb name "SCALEKIT_AUTH_SERVER"
  then Some "https://pony.scalekit.dev/resources/res_1"
  else if String.eqb name "SCALEKIT_CLIENT_ID" then Some "skc_1"
  else if String.eqb name "SCALEKIT_CLIENT_SECRET" then Some "secret"
  else if String.eqb name "MCP_RESOURCE_ID"
  then Some "https://mcp.example.com/mcp"
  else if String.eqb name "MCP_SCOPES" then Some "pony:read pony:write"
  else None.

Definition sampleConfig : ScalekitEnv.Config :=
  ScalekitEnv.mkConfig "https://pony.scalekit.dev"
    "https://pony.scalekit.dev/resources/res_1" "skc_1" "secret"
    "https://mcp.example.com/mcp" "http://localhost:3000/mcp" None
    ["pony:read"; "pony:write"].

(** A token service that accepts [good-token] for the audience of a
    server on port 3000 of this machine and nothing else. *)
Definition acceptsForLocalhost (tok : string) (audience : list string)
  : option Json.t :=
  if bool_decide (audience = ["http://localhost:3000/mcp"])
  then Scenario.acceptsGoodToken tok audience
  else None.

(** A [JSON.stringify] that prints every value the same way. *)
Definition sampleStringify (claims : option Json.t) : string := "{...}".

End Samples.

(** ** What the routers are observed to do *)

Module RouterViews.
Import Js Http Registry.

(** Which transport a router may call for a request: the one registered
    under the session id of the request or, where [mayCreate] holds and
    the request names no session, a new transport without a session; and
    never more than one. *)
Definition chosen (transports : Registry.t) (sessionId : option string)
  (mayCreate : bool) (o : Outcome.t) : Prop :=
  (length (Outcome.delivered o) <= 1)%nat
  /\ forall dl, dl ∈ Outcome.delivered o ->
       (exists sid, sessionId = Some sid /\ truthy sid = true
                    /\ transports !! sid = Some (Outcome.target dl))
       \/ (mayCreate = true
           /\ (sessionId = None \/ sessionId = Some EmptyString)
           /\ Outcome.target dl = mkTransport None).

(** The response is the JSON-RPC error envelope with the given code and a
    null id. *)
Definition rpcError (code : Z) (res : Response) : Prop :=
  exists message,
    payload res
    = JsonBody
        (Json.Obj
           [("jsonrpc", Json.Str "2.0");
            ("error", Json.Obj [("code", Json.Num code);
                                ("message", Json.Str message)]);
            ("id", Json.Null)]).

(** The request names no session the server could serve: no id, or an id
    that is neither live nor a property of [Object.prototype]. *)
Definition unknownSession (transports : Registry.t) (req : Request) : Prop :=
  match headers req "mcp-session-id" with
  | Some sid => ¬ live transports sid /\ sid ∉ objectPrototypeKeys
  | None => True
  end.

End RouterViews.

(** * Properties *)

(** ** The SSE demo router *)

Module SseFacts.
Import Js Sse.
Local Open Scope list_scope.

(** *** Traces *)

Lemma disconnected_app (t u : list Action) :
  disconnected (t ++ u) = disconnected t || disconnected u.
Proof. apply existsb_app. Qed.

Lemma afterClose_app (t u : list Action) :
  afterClose (t ++ u)
  = if disconnected t then afterClose t ++ u else afterClose u.
Proof.
  induction t as [| a t IH]; [reflexivity |].
  destruct a; simpl; try exact IH.
  reflexivity.
Qed.

Lemma abortsEmission_app (t u : list Action) :
  abortsEmission (t ++ u)
  = if disconnected t
    then abortsEmission t && forallb (fun a => negb (isWrite a)) u
    else abortsEmission u.
Proof.
  unfold abortsEmission. rewrite afterClose_app.
  destruct (disconnected t); [apply forallb_app | reflexivity].
Qed.

Lemma timerStillFires_app (t u : list Action) :
  timerStillFires (t ++ u)
  = if disconnected t
    then timerStillFires t || existsb isTimeout u
    else timerStillFires u.
Proof.
  unfold timerStillFires. rewrite afterClose_app.
  destruct (disconnected t); [apply existsb_app | reflexivity].
Qed.

(** Appending actions that hold no 'close' and, after a disconnect, no
    write, keeps a state in [detectsDisconnect]. *)
Lemma detects_extend (st : State) (e : bool) (u : list Action) :
  detectsDisconnect st ->
  disconnected u = false ->
  (aborted st = true -> forallb (fun a => negb (isWrite a)) u = true) ->
  (aborted st = true -> writableEnded st = true) ->
  detectsDisconnect
    (mkState (aborted st) (writableEnded st || e) (trace st ++ u)).
Proof.
  intros (Ha & Hq & Hd) Hu Hw He. unfold detectsDisconnect. simpl.
  rewrite disconnected_app, abortsEmission_app, timerStillFires_app, Hu.
  rewrite orb_false_r, <- Ha.
  destruct (aborted st) eqn:Hab.
  - destruct (Hd (eq_sym Ha)) as [Hwe Ht].
    rewrite Hq, Ht, Hw, Hwe by reflexivity. repeat split.
  - repeat split; try discriminate.
    unfold abortsEmission. clear - Hu.
    induction u as [| a u IH]; [reflexivity |].
    simpl in Hu. apply orb_false_elim in Hu as [Hc Hu].
    destruct a; try discriminate Hc; simpl; auto.
Qed.

Lemma detects_write (c : string) (st : State) :
  detectsDisconnect st -> aborted st = false ->
  detectsDisconnect (response_write c st).
Proof.
  intros H Hab.
  pose proof (detects_extend st false [Write c] H eq_refl) as Hx.
  rewrite orb_false_r in Hx. apply Hx; rewrite Hab; discriminate.
Qed.

Lemma detects_end (st : State) :
  detectsDisconnect st -> detectsDisconnect (response_end st).
Proof.
  intros H. destruct H as (Ha & Hq & Hd). unfold detectsDisconnect.
  unfold response_end, emit. simpl.
  rewrite disconnected_app, abortsEmission_app, timerStillFires_app.
  simpl. rewrite orb_false_r, <- Ha.
  destruct (aborted st) eqn:Hab.
  - destruct (Hd (eq_sym Ha)) as [_ Ht]. rewrite Hq, Ht. repeat split.
  - repeat split; discriminate.
Qed.

(** [await sleep(1000)] with the listener that calls [cleanup]. *)
Lemma detects_sleep (b : bool) (st : State) :
  detectsDisconnect st -> aborted st = false ->
  detectsDisconnect (sleep 1000 b cleanup st)
  /\ aborted (sleep 1000 b cleanup st) = b.
Proof.
  intros (Ha & Hq & Hd) Hab. rewrite Hab in Ha.
  unfold sleep, cleanup, response_end, emit, detectsDisconnect.
  destruct b; simpl.
  - destruct (writableEnded st); simpl;
      rewrite <- ?app_assoc; simpl;
      rewrite disconnected_app, abortsEmission_app, timerStillFires_app,
        <- Ha; simpl; repeat split.
  - rewrite <- ?app_assoc; simpl.
    rewrite disconnected_app, abortsEmission_app, timerStillFires_app,
      <- Ha, Hab; simpl; repeat split; discriminate.
Qed.

(** *** The loops, one iteration at a time *)

Lemma custom_events_loop_step (fuel : nat) (d : option Z) (i : Z)
  (st : State) :
  custom_events_loop (S fuel) d i st
  = if i <? 10 then
      if aborted st then Some (i, st) else
      let st1 := sleep 1000 (closes d i) cleanup st in
      if aborted st1 then Some (i, st1) else
      custom_events_loop fuel d (i + 1)
        (response_write
           ("data: { " ++ dq ++ "value" ++ dq ++ ": " ++ toString i ++ " }"
            ++ nl ++ nl)%string
           (response_write ("event: " ++ parity i ++ nl)%string st1))
    else Some (i, st).
Proof. reflexivity. Qed.

Lemma custom_events_with_id_loop_step (fuel : nat) (d : option Z) (i : Z)
  (st : State) :
  custom_events_with_id_loop (S fuel) d i st
  = if i <? 10 then
      if aborted st then Some (i, st) else
      let st1 := sleep 1000 (closes d i) cleanup st in
      if aborted st1 then Some (i, st1) else
      let st2 :=
        response_write ("id: " ++ toString i ++ nl ++ nl)%string
          (response_write
             ("data: { " ++ dq ++ "value" ++ dq ++ ": " ++ toString i
              ++ " }" ++ nl)%string
             (response_write ("event: " ++ parity i ++ nl)%string st1)) in
      if i =? 5 then Some (i, st2)
      else custom_events_with_id_loop fuel d (i + 1) st2
    else Some (i, st).
Proof. reflexivity. Qed.

(** Both loops end, and they keep [detectsDisconnect]; the loop of
    [/custom-events-with-id] moreover leaves [i] at 10 or beyond only when
    it ran to its end. *)
Lemma custom_events_loop_detects (fuel : nat) (d : option Z) :
  forall (i : Z) (st : State),
    (Z.to_nat (10 - i) < fuel)%nat ->
    detectsDisconnect st ->
    exists i' st',
      custom_events_loop fuel d i st = Some (i', st')
      /\ detectsDisconnect st'.
Proof.
  induction fuel as [| fuel IH]; intros i st Hf Hst; [lia |].
  rewrite custom_events_loop_step.
  destruct (Z.ltb_spec i 10) as [Hi | Hi]; [| eauto].
  destruct (aborted st) eqn:Hab; [eauto |].
  destruct (detects_sleep (closes d i) st Hst Hab) as [Hs Hb].
  cbv zeta. rewrite Hb.
  destruct (closes d i); [eauto |].
  apply IH; [lia |].
  apply detects_write; [apply detects_write; assumption | exact Hb].
Qed.

Lemma custom_events_with_id_loop_detects (fuel : nat) (d : option Z) :
  forall (i : Z) (st : State),
    (Z.to_nat (10 - i) < fuel)%nat ->
    detectsDisconnect st ->
    exists i' st',
      custom_events_with_id_loop fuel d i st = Some (i', st')
      /\ detectsDisconnect st'.
Proof.
  induction fuel as [| fuel IH]; intros i st Hf Hst; [lia |].
  rewrite custom_events_with_id_loop_step.
  destruct (Z.ltb_spec i 10) as [Hi | Hi]; [| eauto].
  destruct (aborted st) eqn:Hab; [eauto |].
  destruct (detects_sleep (closes d i) st Hst Hab) as [Hs Hb].
  cbv zeta. rewrite Hb.
  destruct (closes d i); [eauto |].
  assert (detectsDisconnect
            (response_write ("id: " ++ toString i ++ nl ++ nl)%string
               (response_write
                  ("data: { " ++ dq ++ "value" ++ dq ++ ": " ++ toString i
                   ++ " }" ++ nl)%string
                  (response_write ("event: " ++ parity i ++ nl)%string
                     (sleep 1000 false cleanup st))))) as Hw
    by (repeat apply detects_write; assumption).
  destruct (i =? 5); [eauto |].
  apply IH; [lia | exact Hw].
Qed.

Lemma chunks_app (t u : list Action) :
  chunks (t ++ u) = chunks t ++ chunks u.
Proof. apply omap_app. Qed.

Lemma chunks_write (c : string) (st : State) :
  chunks (trace (response_write c st)) = chunks (trace st) ++ [c].
Proof. apply chunks_app. Qed.

Lemma ownActions_app (t u : list Action) :
  ownActions (t ++ u) = ownActions t ++ ownActions u.
Proof. apply List.filter_app. Qed.

Lemma chunks_ownActions (t : list Action) :
  chunks (ownActions t) = chunks t.
Proof.
  unfold chunks, ownActions.
  induction t as [| a t IH]; [reflexivity |].
  destruct a; cbn; rewrite ?IH; reflexivity.
Qed.

Lemma beforeEnd_ownActions (t : list Action) :
  beforeEnd (ownActions t) = ownActions (beforeEnd t).
Proof.
  unfold ownActions.
  induction t as [| a t IH]; [reflexivity |].
  destruct a; cbn; rewrite ?IH; reflexivity.
Qed.

Lemma finalFrame_ownActions (t : list Action) :
  finalFrame (ownActions t) = finalFrame t.
Proof.
  unfold finalFrame.
  rewrite beforeEnd_ownActions, chunks_ownActions. reflexivity.
Qed.

Lemma ownActions_sleep_deaf (ms : Z) (b : bool) (st : State) :
  ownActions (trace (sleep ms b id st))
  = ownActions (trace st) ++ [SetTimeout ms; Timeout].
Proof.
  unfold sleep, emit. destruct b; cbn [trace id];
    rewrite !ownActions_app, <- !app_assoc; reflexivity.
Qed.

(** [/data-only] has no listener for 'close': what it does is the same
    whenever, or whether, the client leaves. *)
Lemma data_only_loop_deaf (fuel : nat) (d : option Z) :
  forall (i : Z) (st st0 : State),
    ownActions (trace st) = ownActions (trace st0) ->
    match data_only_loop fuel d i st, data_only_loop fuel None i st0 with
    | Some (_, st'), Some (_, st0') =>
        ownActions (trace st') = ownActions (trace st0')
    | None, None => True
    | _, _ => False
    end.
Proof.
  induction fuel as [| fuel IH]; intros i st st0 H; [exact I |].
  simpl. destruct (i <? 10); [| exact H].
  apply IH. unfold response_write, emit. cbn [trace].
  rewrite !ownActions_app, !ownActions_sleep_deaf, H. reflexivity.
Qed.

Lemma data_only_deaf (request : Request) (d : option Z) :
  exists st,
    data_only request d = Some st
    /\ Some (ownActions (trace st)) = trace <$> data_only request None.
Proof.
  unfold data_only.
  pose proof
    (data_only_loop_deaf 11 d 0
       (response_write (": Let's get started" ++ nl ++ nl)%string
          (response_writeHead 200 [("Content-Type", "text/event-stream")]
             start))
       _ eq_refl) as H.
  revert H. vm_compute (data_only_loop 11 None 0 _).
  destruct (data_only_loop 11 d 0 _) as [[i st] |]; [| contradiction].
  intros H. eexists; split; [reflexivity |].
  change (trace (response_end (response_write emptyMessage st)))
    with ((trace st ++ [Write emptyMessage]) ++ [End]).
  rewrite !ownActions_app, H. vm_compute. reflexivity.
Qed.

(** Whatever the client does, [/data-only] writes its whole body and the
    empty message is its last frame. *)
Lemma data_only_body (request : Request) (d : option Z) :
  exists st,
    data_only request d = Some st
    /\ chunks (trace st) = dataOnlyBody
    /\ finalFrame (trace st) = Some emptyMessage.
Proof.
  destruct (data_only_deaf request d) as (st & Hrun & Hown).
  exists st. split; [exact Hrun |].
  rewrite <- chunks_ownActions, <- finalFrame_ownActions.
  set (own := ownActions (trace st)) in *. clearbody own.
  vm_compute in Hown. injection Hown as ->.
  split; vm_compute; reflexivity.
Qed.

Lemma parseInt_truthy (h : string) (k : Z) :
  parseInt h = Some k -> truthy h = true.
Proof. destruct h; [discriminate | reflexivity]. Qed.

(** A usable cursor [k] makes the loop start at [k + 1] and writes
    nothing. *)
Lemma resume_valid (h : string) (k : Z) (st : State) :
  parseInt h = Some k -> 0 <= k -> resume (Some h) st = (k + 1, st).
Proof.
  intros Hp Hk. unfold resume.
  rewrite (parseInt_truthy _ _ Hp), Hp.
  destruct (Z.ltb_spec k 0); [lia | reflexivity].
Qed.

(** Past the last event the loop body is never entered. *)
Lemma with_id_loop_done (fuel : nat) (d : option Z) (i : Z) (st : State) :
  10 <= i ->
  custom_events_with_id_loop (S fuel) d i st = Some (i, st).
Proof.
  intros Hi. simpl. destruct (Z.ltb_spec i 10); [lia | reflexivity].
Qed.

(** The handler applied to a request with a usable cursor. *)
Lemma with_id_resumed (request : Request) (d : option Z) (h : string)
  (k : Z) :
  accepts request "text/event-stream" = true ->
  header request "Last-Event-Id" = Some h ->
  parseInt h = Some k -> 0 <= k ->
  custom_events_with_id request d
  = match
      custom_events_with_id_loop (S (Z.to_nat (10 - (k + 1)))) d (k + 1)
        (response_writeHead 200 eventStreamHeaders start)
    with
    | None => None
    | Some (i, st) =>
        Some (response_end
                (if (i =? 10) && negb (aborted st)
                 then response_write eom st else st))
    end.
Proof.
  intros Ha Hh Hp Hk. unfold custom_events_with_id.
  rewrite Ha, Hh. cbn [negb].
  rewrite (resume_valid _ _ _ Hp Hk). reflexivity.
Qed.

(** C10 (cursor at or past the end): with a usable cursor [k >= 9] no
    event is emitted; for [k = 9] the body is exactly the [eom] marker,
    for [k >= 10] nothing at all is written, and in both cases the
    response is ended, whatever the client does meanwhile. *)
Theorem cursor_at_or_past_end (request : Request) (d : option Z)
  (h : string) (k : Z) :
  accepts request "text/event-stream" = true ->
  header request "Last-Event-Id" = Some h ->
  parseInt h = Some k -> 9 <= k ->
  exists st,
    custom_events_with_id request d = Some st
    /\ eventIds (trace st) = []
    /\ writableEnded st = true
    /\ last (trace st) = Some End
    /\ (k = 9 ->
        chunks (trace st) = [eom] /\ finalFrame (trace st) = Some eom)
    /\ (10 <= k ->
        chunks (trace st) = [] /\ finalFrame (trace st) = None).
Proof.
  intros Ha Hh Hp Hk.
  rewrite (with_id_resumed request d h k Ha Hh Hp) by lia.
  rewrite with_id_loop_done by lia.
  destruct (Z.eqb_spec (k + 1) 10) as [E | E].
  - eexists; split; [reflexivity |].
    repeat split; try reflexivity; intros; lia.
  - eexists; split; [reflexivity |].
    repeat split; try reflexivity; intros; lia.
Qed.

Lemma cursor_at_or_past_end_witness :
  exists st,
    custom_events_with_id (get_with (Some "12")) None = Some st
    /\ eventIds (trace st) = []
    /\ writableEnded st = true
    /\ last (trace st) = Some End
    /\ (12 = 9 ->
        chunks (trace st) = [eom] /\ finalFrame (trace st) = Some eom)
    /\ (10 <= 12 ->
        chunks (trace st) = [] /\ finalFrame (trace st) = None).
Proof.
  apply (cursor_at_or_past_end (get_with (Some "12")) None "12" 12);
    [reflexivity | reflexivity | reflexivity | lia].
Defined.

(** *** Client disconnects *)

Lemma detects_resume (lastEventId : option string) (st : State) :
  detectsDisconnect st -> aborted st = false ->
  detectsDisconnect (snd (resume lastEventId st)).
Proof.
  intros H Hab. unfold resume.
  destruct lastEventId as [h |]; [| exact H].
  destruct (truthy h); [| exact H].
  destruct (parseInt h) as [parsed |];
    [destruct (parsed <? 0) |]; simpl;
    try exact H; apply detects_write; assumption.
Qed.

Lemma custom_events_detects (request : Request) (d : option Z) :
  exists st, custom_events request d = Some st /\ detectsDisconnect st.
Proof.
  unfold custom_events.
  destruct (accepts request "text/event-stream"); cbn [negb].
  - destruct (custom_events_loop_detects 11 d 0
                (response_writeHead 200 eventStreamHeaders start))
      as (i & st & -> & Hst);
      [vm_compute; lia | vm_compute; repeat split; discriminate |].
    eexists; split; [reflexivity |].
    apply detects_end.
    destruct (aborted st) eqn:Hab; simpl;
      [exact Hst | apply detects_write; assumption].
  - eexists; split; [reflexivity |].
    vm_compute; repeat split; discriminate.
Qed.

Lemma custom_events_with_id_detects (request : Request) (d : option Z) :
  exists st,
    custom_events_with_id request d = Some st /\ detectsDisconnect st.
Proof.
  unfold custom_events_with_id.
  destruct (accepts request "text/event-stream"); cbn [negb].
  - pose proof
      (detects_resume (header request "Last-Event-Id")
         (response_writeHead 200 eventStreamHeaders start)) as Hr.
    destruct (resume _ _) as [i0 st0]. simpl in Hr.
    destruct (custom_events_with_id_loop_detects
                (S (Z.to_nat (10 - i0))) d i0 st0)
      as (i & st & -> & Hst);
      [lia | apply Hr; [vm_compute; repeat split; discriminate
                       | reflexivity] |].
    eexists; split; [reflexivity |].
    apply detects_end.
    destruct ((i =? 10) && negb (aborted st)) eqn:Hc;
      [| exact Hst].
    apply detects_write; [exact Hst |].
    apply andb_prop in Hc as [_ Hc].
    destruct (aborted st); [discriminate | reflexivity].
  - eexists; split; [reflexivity |].
    vm_compute; repeat split; discriminate.
Qed.

(** C8 (cancellation), as the code has it: on [/custom-events] and
    [/custom-events-with-id] a disconnect during the stream is detected
    (the [aborted] flag is set exactly then, and the response is ended),
    and no chunk is written after it; but the timer of the sleep that was
    pending is not cancelled and fires all the same.  [/data-only]
    listens for no 'close' and writes its whole body whatever the client
    does. *)
Theorem disconnect_stops_writes_not_timer (d : option Z) :
  (forall request, exists st,
      custom_events request d = Some st /\ detectsDisconnect st)
  /\ (forall request, exists st,
         custom_events_with_id request d = Some st /\ detectsDisconnect st)
  /\ (forall request, exists st,
         data_only request d = Some st
         /\ chunks (trace st) = dataOnlyBody).
Proof.
  split; [| split]; intros request.
  - apply custom_events_detects.
  - apply custom_events_with_id_detects.
  - destruct (data_only_body request d) as (st & Hrun & Hbody & _).
    eauto.
Qed.

(** C8 as stated fails: when the client leaves during the fourth sleep of
    [/custom-events], no chunk follows, yet the timer of that sleep still
    runs to completion. *)
Lemma timer_outlives_disconnect :
  ~ (exists st,
       custom_events (get_with None) (Some 3) = Some st
       /\ abortsEmission (trace st) = true
       /\ timersCancelled (trace st) = true).
Proof.
  intros (st & Hrun & _ & Hc).
  vm_compute in Hrun. injection Hrun as <-.
  vm_compute in Hc. discriminate Hc.
Qed.

(** On [/data-only] chunks are written after the client has left. *)
Lemma data_only_writes_after_disconnect :
  exists st,
    data_only (get_with None) (Some 3) = Some st
    /\ disconnected (trace st) = true
    /\ abortsEmission (trace st) = false.
Proof. eexists; split; [vm_compute; reflexivity | split; reflexivity]. Qed.

(** *** Where the stream starts *)

Lemma eventIds_app (t u : list Action) :
  eventIds (t ++ u) = eventIds t ++ eventIds u.
Proof. unfold eventIds. rewrite chunks_app. apply omap_app. Qed.

Lemma statusCode_app (t u : list Action) (c : Z) :
  statusCode t = Some c -> statusCode (t ++ u) = Some c.
Proof.
  unfold statusCode. rewrite omap_app.
  destruct (omap _ t); [discriminate | auto].
Qed.

(** The three chunks of event [i] carry the id [i]. *)
Lemma eventIds_frame (i : Z) :
  0 <= i < 10 ->
  eventIds
    [Write ("event: " ++ parity i ++ nl)%string;
     Write ("data: { " ++ dq ++ "value" ++ dq ++ ": " ++ toString i ++ " }"
            ++ nl)%string;
     Write ("id: " ++ toString i ++ nl ++ nl)%string]
  = [i].
Proof.
  intros Hi.
  assert (Hcases : i = 0 \/ i = 1 \/ i = 2 \/ i = 3 \/ i = 4 \/ i = 5
                   \/ i = 6 \/ i = 7 \/ i = 8 \/ i = 9) by lia.
  clear Hi.
  repeat (destruct Hcases as [-> | Hcases]); try subst i;
    vm_compute; reflexivity.
Qed.

Lemma sleep_trace (b : bool) (st : State) :
  exists u,
    trace (sleep 1000 b cleanup st) = trace st ++ u /\ eventIds u = [].
Proof.
  unfold sleep, cleanup, response_end, emit.
  destruct b; [destruct (writableEnded st) |]; simpl;
    rewrite <- ?app_assoc; simpl; eexists; split; reflexivity.
Qed.

(** What the loop of [/custom-events-with-id] adds to the trace carries
    consecutive ids that begin at the index it was entered with. *)
Lemma custom_events_with_id_loop_ids (fuel : nat) (d : option Z) :
  forall (i : Z) (st : State),
    0 <= i -> (Z.to_nat (10 - i) < fuel)%nat ->
    exists i' st' out n,
      custom_events_with_id_loop fuel d i st = Some (i', st')
      /\ trace st' = trace st ++ out
      /\ eventIds out = idsFrom i n.
Proof.
  induction fuel as [| fuel IH]; intros i st H0 Hf; [lia |].
  rewrite custom_events_with_id_loop_step.
  destruct (Z.ltb_spec i 10) as [Hi | Hi];
    [| exists i, st, [], 0%nat; rewrite app_nil_r; auto].
  destruct (aborted st);
    [exists i, st, [], 0%nat; rewrite app_nil_r; auto |].
  cbv zeta.
  destruct (sleep_trace (closes d i) st) as (u & Hu & Hids).
  destruct (aborted (sleep 1000 (closes d i) cleanup st));
    [exists i, (sleep 1000 (closes d i) cleanup st), u, 0%nat; auto |].
  set (st2 := response_write _ (response_write _ (response_write _ _))).
  assert (Ht2 : trace st2
                = trace st
                  ++ u
                  ++ [Write ("event: " ++ parity i ++ nl)%string;
                      Write ("data: { " ++ dq ++ "value" ++ dq ++ ": "
                             ++ toString i ++ " }" ++ nl)%string;
                      Write ("id: " ++ toString i ++ nl ++ nl)%string]).
  { subst st2. unfold response_write, emit. cbn [trace]. rewrite Hu.
    rewrite <- !app_assoc. reflexivity. }
  destruct (i =? 5).
  - exists i, st2. eexists. exists 1%nat.
    split; [reflexivity |]. split; [exact Ht2 |].
    rewrite eventIds_app, Hids, eventIds_frame by lia. reflexivity.
  - destruct (IH (i + 1) st2) as (i' & st' & out & n & Hl & Ht & Ho);
      [lia | lia |].
    exists i', st'. eexists. exists (S n).
    split; [exact Hl |]. split.
    + rewrite Ht, Ht2, <- !app_assoc. reflexivity.
    + rewrite !eventIds_app, Hids, Ho, eventIds_frame by lia.
      reflexivity.
Qed.

(** Without a usable cursor the loop starts at 0; a header that is there
    but unusable is answered with the comment first. *)
Lemma resume_unusable (lastEventId : option string) (st : State) :
  noUsableCursor lastEventId ->
  resume lastEventId st
  = (0, match lastEventId with
        | Some h =>
            if truthy h then response_write invalidLastEventId st else st
        | None => st
        end).
Proof.
  unfold noUsableCursor, resume.
  destruct lastEventId as [h |]; [| reflexivity].
  destruct (truthy h); [| reflexivity].
  intros [-> | (n & -> & Hn)]; [reflexivity |].
  destruct (Z.ltb_spec n 0); [reflexivity | lia].
Qed.

(** The run of [/custom-events-with-id] from index 0, on a state [st0]
    that holds the status line and no event yet. *)
Lemma restart_from_0 (d : option Z) (st0 : State) :
  statusCode (trace st0) = Some 200 ->
  eventIds (trace st0) = [] ->
  (d = None ->
   exists i st,
     custom_events_with_id_loop 11 None 0 st0 = Some (i, st)
     /\ eventIds (trace st) = idRange 0 5 /\ i = 5) ->
  exists st,
    match custom_events_with_id_loop (S (Z.to_nat (10 - 0))) d 0 st0 with
    | None => None
    | Some (i, st) =>
        Some (response_end
                (if (i =? 10) && negb (aborted st)
                 then response_write eom st else st))
    end = Some st
    /\ statusCode (trace st) = Some 200
    /\ (exists n, eventIds (trace st) = idsFrom 0 n)
    /\ (d = None -> eventIds (trace st) = idRange 0 5)
    /\ (exists rest, chunks (trace st) = chunks (trace st0) ++ rest).
Proof.
  intros Hs He Hnone.
  destruct (custom_events_with_id_loop_ids (S (Z.to_nat (10 - 0))) d 0 st0)
    as (i & st & out & n & Hl & Ht & Ho); [lia | lia |].
  rewrite Hl. eexists; split; [reflexivity |].
  assert (Hfin : exists tl,
             trace (response_end
                      (if (i =? 10) && negb (aborted st)
                       then response_write eom st else st))
             = trace st0 ++ out ++ tl
             /\ eventIds tl = []
             /\ (i <> 10 -> tl = [End])).
  { destruct ((i =? 10) && negb (aborted st)) eqn:Hc.
    - exists [Write eom; End].
      unfold response_end, response_write, emit. cbn [trace].
      rewrite Ht, <- !app_assoc. repeat split.
      apply andb_prop in Hc as [Hc _]. lia.
    - exists [End]. unfold response_end, emit. cbn [trace].
      rewrite Ht, <- !app_assoc. repeat split. }
  destruct Hfin as (tl & -> & Htl & Hend).
  split; [apply statusCode_app, Hs |].
  split; [exists n; rewrite !eventIds_app, He, Ho, Htl, app_nil_r;
          reflexivity |].
  split.
  - intros ->. destruct (Hnone eq_refl) as (i5 & st5 & Hl5 & Hids & ->).
    change (S (Z.to_nat (10 - 0))) with 11%nat in Hl.
    rewrite Hl5 in Hl. injection Hl as <- <-.
    rewrite Ht in Hids.
    rewrite app_assoc, eventIds_app, Hids, Hend by lia. reflexivity.
  - rewrite chunks_app. eauto.
Qed.

(** C6 (invalid cursor tolerance), as amended: a request without a
    usable [Last-Event-Id] (none, one from which [parseInt] reads no
    number, or one from which it reads a number below 0) is answered 200
    and its events are numbered from 0 upwards without a gap, whenever
    the client leaves; if it stays, they are the events 0 to 5.  A header
    that is there but unusable is announced by a comment before the first
    event. *)
Theorem unusable_cursor_restarts (request : Request) (d : option Z) :
  accepts request "text/event-stream" = true ->
  noUsableCursor (header request "Last-Event-Id") ->
  exists st,
    custom_events_with_id request d = Some st
    /\ statusCode (trace st) = Some 200
    /\ (exists n, eventIds (trace st) = idsFrom 0 n)
    /\ (d = None -> eventIds (trace st) = idRange 0 5)
    /\ (forall h,
          header request "Last-Event-Id" = Some h -> truthy h = true ->
          head (chunks (trace st)) = Some invalidLastEventId).
Proof.
  intros Ha Hc. unfold custom_events_with_id.
  rewrite Ha. cbn [negb]. cbv zeta.
  rewrite (resume_unusable _ _ Hc).
  set (st0 := match header request "Last-Event-Id" with
              | Some h => if truthy h then _ else _
              | None => _
              end).
  assert (Hst0 : (st0 = response_writeHead 200 eventStreamHeaders start
                  /\ forall h, header request "Last-Event-Id" = Some h ->
                               truthy h = false)
                 \/ (st0 = response_write invalidLastEventId
                             (response_writeHead 200 eventStreamHeaders
                                start))).
  { subst st0. destruct (header request "Last-Event-Id") as [h |].
    - destruct (truthy h) eqn:Ht; [right; reflexivity |].
      left; split; [reflexivity |]. intros h' [= <-]. exact Ht.
    - left; split; [reflexivity | discriminate]. }
  clearbody st0.
  destruct Hst0 as [[-> Hf] | ->].
  - destruct (restart_from_0 d
                (response_writeHead 200 eventStreamHeaders start))
      as (st & Hrun & Hs & Hn & Hd & _);
      [reflexivity | reflexivity
       | intros _; do 2 eexists; split;
         [vm_compute; reflexivity | split; reflexivity] |].
    exists st. repeat split; try assumption.
    intros h Hh Ht. rewrite (Hf h Hh) in Ht. discriminate.
  - destruct (restart_from_0 d
                (response_write invalidLastEventId
                   (response_writeHead 200 eventStreamHeaders start)))
      as (st & Hrun & Hs & Hn & Hd & rest & Hr);
      [reflexivity | reflexivity
       | intros _; do 2 eexists; split;
         [vm_compute; reflexivity | split; reflexivity] |].
    exists st. repeat split; try assumption.
    intros h _ _. rewrite Hr. reflexivity.
Qed.

Lemma unusable_cursor_restarts_witness :
  exists st,
    custom_events_with_id (get_with (Some "abc")) None = Some st
    /\ statusCode (trace st) = Some 200
    /\ (exists n, eventIds (trace st) = idsFrom 0 n)
    /\ (@None Z = None -> eventIds (trace st) = idRange 0 5)
    /\ (forall h,
          header (get_with (Some "abc")) "Last-Event-Id" = Some h ->
          truthy h = true ->
          head (chunks (trace st)) = Some invalidLastEventId).
Proof.
  apply (unusable_cursor_restarts (get_with (Some "abc")) None);
    [reflexivity | left; reflexivity].
Defined.

(** [parseInt] reads a leading number and ignores what follows it, so
    a header such as [5x] is a usable cursor. *)
Example lenient_cursor :
  parseInt "5x" = Some 5 /\ parseInt " 7" = Some 7 /\ parseInt "-0" = Some 0.
Proof. repeat split. Qed.

(** C6 as stated fails on a header that is not a number but begins with
    one: [5x] is taken as the cursor 5, so the stream is not restarted
    from event 0. *)
Lemma non_numeric_cursor_resumes :
  nonNumericOrNegative "5x"
  /\ ~ (exists st,
         custom_events_with_id (get_with (Some "5x")) None = Some st
         /\ head (eventIds (trace st)) = Some 0).
Proof.
  split; [left; reflexivity |].
  intros (st & Hrun & Hids).
  vm_compute in Hrun. injection Hrun as <-.
  vm_compute in Hids. discriminate Hids.
Qed.

(** What the handler does with such headers on a connection that stays
    open: the events after the number it read, and no comment about an
    invalid cursor. *)
Example leading_number_resumes :
  (fun st => (statusCode (trace st), eventIds (trace st),
              bool_decide
                (head (chunks (trace st)) = Some invalidLastEventId)))
    <$> custom_events_with_id (get_with (Some "5x")) None
  = Some (Some 200, [6; 7; 8; 9], false)
  /\ nonNumericOrNegative "-0.5"
  /\ (fun st => eventIds (trace st))
       <$> custom_events_with_id (get_with (Some "-0.5")) None
     = Some [1; 2; 3; 4; 5].
Proof.
  split; [vm_compute; reflexivity |].
  split; [left; reflexivity | vm_compute; reflexivity].
Qed.

(** The two headers the specification names, on a connection that stays
    open. *)
Example restart_on_abc :
  (fun st => eventIds (trace st))
    <$> custom_events_with_id (get_with (Some "abc")) None
  = Some [0; 1; 2; 3; 4; 5].
Proof. vm_compute. reflexivity. Qed.

Example restart_on_minus_3 :
  (fun st => (statusCode (trace st), eventIds (trace st)))
    <$> custom_events_with_id (get_with (Some "-3")) None
  = Some (Some 200, [0; 1; 2; 3; 4; 5]).
Proof. vm_compute. reflexivity. Qed.

(** *** The end-of-stream marker *)

Lemma hasEnd_app (t u : list Action) :
  hasEnd (t ++ u) = hasEnd t || hasEnd u.
Proof. apply existsb_app. Qed.

Lemma beforeEnd_app (t u : list Action) :
  hasEnd t = false -> beforeEnd (t ++ u) = t ++ beforeEnd u.
Proof.
  induction t as [| a t IH]; [reflexivity |].
  destruct a; simpl; intros H; try discriminate H;
    rewrite (IH H); reflexivity.
Qed.

(** A marker written last, right before the first [response.end()], is
    the final frame. *)
Lemma finalFrame_marker (t : list Action) (c : string) :
  hasEnd t = false -> finalFrame (t ++ [Write c; End]) = Some c.
Proof.
  intros H. unfold finalFrame. rewrite beforeEnd_app by exact H.
  simpl. rewrite chunks_app. apply last_snoc.
Qed.

Lemma length_idsFrom (z : Z) (n : nat) : length (idsFrom z n) = n.
Proof. revert z; induction n; intros z; simpl; auto. Qed.

Lemma idRange_cons (lo hi : Z) :
  lo <= hi -> idRange lo hi = lo :: idRange (lo + 1) hi.
Proof.
  intros H. unfold idRange.
  replace (Z.to_nat (hi - lo + 1)) with (S (Z.to_nat (hi - (lo + 1) + 1)))
    by lia.
  reflexivity.
Qed.

Lemma idRange_nil (lo hi : Z) : hi < lo -> idRange lo hi = [].
Proof.
  intros H. unfold idRange.
  replace (Z.to_nat (hi - lo + 1)) with 0%nat by lia. reflexivity.
Qed.

Lemma aborted_sleep (b : bool) (st : State) :
  aborted st = false -> aborted (sleep 1000 b cleanup st) = b.
Proof.
  intros H. unfold sleep, cleanup, response_end, emit.
  destruct b; [destruct (writableEnded st) |]; simpl; auto.
Qed.

Lemma trace_sleep_awake (st : State) :
  trace (sleep 1000 false cleanup st)
  = trace st ++ [SetTimeout 1000; Timeout].
Proof.
  unfold sleep, emit. cbn [trace]. rewrite <- app_assoc. reflexivity.
Qed.

(** A run of the loop of [/custom-events] that is not aborted has not
    ended the response. *)
Lemma custom_events_loop_undisturbed (fuel : nat) (d : option Z) :
  forall (i i' : Z) (st st' : State),
    custom_events_loop fuel d i st = Some (i', st') ->
    aborted st' = false ->
    hasEnd (trace st) = false ->
    hasEnd (trace st') = false.
Proof.
  induction fuel as [| fuel IH]; intros i i' st st' Hl Hab He;
    [discriminate |].
  rewrite custom_events_loop_step in Hl.
  destruct (i <? 10); [| injection Hl as <- <-; exact He].
  destruct (aborted st) eqn:Hst; [injection Hl as <- <-; exact He |].
  cbv zeta in Hl. rewrite (aborted_sleep _ _ Hst) in Hl.
  destruct (closes d i).
  - injection Hl as <- <-.
    rewrite (aborted_sleep true _ Hst) in Hab. discriminate.
  - apply IH in Hl; [exact Hl | exact Hab |].
    unfold response_write, emit. cbn [trace].
    rewrite trace_sleep_awake, !hasEnd_app, He. reflexivity.
Qed.

(** A run of the loop of [/custom-events-with-id] that is not aborted
    has not ended the response; entered at or below 5 it stops at 5 with
    the events up to 5 delivered, entered above 5 it delivers the events
    up to 9 and leaves [i] at 10, or where it was when that is more. *)
Lemma custom_events_with_id_loop_undisturbed (fuel : nat) (d : option Z) :
  forall (i i' : Z) (st st' : State),
    custom_events_with_id_loop fuel d i st = Some (i', st') ->
    aborted st' = false ->
    0 <= i ->
    hasEnd (trace st) = false ->
    hasEnd (trace st') = false
    /\ ((i <= 5 /\ i' = 5
         /\ eventIds (trace st') = eventIds (trace st) ++ idRange i 5)
        \/ (5 < i /\ i' = Z.max i 10
            /\ eventIds (trace st') = eventIds (trace st) ++ idRange i 9)).
Proof.
  induction fuel as [| fuel IH]; intros i i' st st' Hl Hab H0 He;
    [discriminate |].
  rewrite custom_events_with_id_loop_step in Hl.
  destruct (Z.ltb_spec i 10) as [Hi | Hi].
  2:{ injection Hl as <- <-. split; [exact He |]. right.
      rewrite idRange_nil, app_nil_r by lia. repeat split; lia. }
  destruct (aborted st) eqn:Hst;
    [injection Hl as <- <-; congruence |].
  cbv zeta in Hl. rewrite (aborted_sleep _ _ Hst) in Hl.
  destruct (closes d i).
  { injection Hl as <- <-.
    rewrite (aborted_sleep true _ Hst) in Hab. discriminate. }
  set (st2 := response_write _ (response_write _ (response_write _ _)))
    in Hl.
  assert (Ht2 : trace st2
                = (trace st ++ [SetTimeout 1000; Timeout])
                  ++ [Write ("event: " ++ parity i ++ nl)%string;
                      Write ("data: { " ++ dq ++ "value" ++ dq ++ ": "
                             ++ toString i ++ " }" ++ nl)%string;
                      Write ("id: " ++ toString i ++ nl ++ nl)%string]).
  { subst st2. unfold response_write, emit. cbn [trace].
    rewrite trace_sleep_awake, <- !app_assoc. reflexivity. }
  assert (He2 : hasEnd (trace st2) = false)
    by (rewrite Ht2, !hasEnd_app, He; reflexivity).
  assert (Hi2 : eventIds (trace st2) = eventIds (trace st) ++ [i]).
  { rewrite Ht2, !eventIds_app, eventIds_frame by lia.
    rewrite app_nil_r. reflexivity. }
  destruct (Z.eqb_spec i 5) as [-> | Hn5].
  - injection Hl as <- <-. split; [exact He2 |]. left.
    repeat split; try lia. exact Hi2.
  - apply IH in Hl; [| exact Hab | lia | exact He2].
    destruct Hl as [He' [(Hle & -> & Hids) | (Hgt & -> & Hids)]];
      (split; [exact He' |]).
    + left. repeat split; try lia.
      rewrite Hids, Hi2, <- app_assoc, (idRange_cons i 5) by lia.
      reflexivity.
    + right. repeat split; try lia.
      rewrite Hids, Hi2, <- app_assoc, (idRange_cons i 9) by lia.
      reflexivity.
Qed.

Lemma resume_state (lastEventId : option string) (st : State) :
  snd (resume lastEventId st) = st
  \/ snd (resume lastEventId st) = response_write invalidLastEventId st.
Proof.
  unfold resume. destruct lastEventId as [h |]; [| auto].
  destruct (truthy h); [| auto].
  destruct (parseInt h) as [n |]; [destruct (n <? 0) |]; auto.
Qed.

Lemma resume_index (lastEventId : option string) (st : State) :
  fst (resume lastEventId st) = fst (resume lastEventId start)
  /\ 0 <= fst (resume lastEventId st).
Proof.
  unfold resume. destruct lastEventId as [h |]; [| split; [auto | simpl; lia]].
  destruct (truthy h); [| split; [auto | simpl; lia]].
  destruct (parseInt h) as [n |]; [| split; [auto | simpl; lia]].
  destruct (Z.ltb_spec n 0); split; simpl; auto; lia.
Qed.

(** [/custom-events]: a stream the client did not leave ends with the
    [eom] event as its final frame. *)
Lemma custom_events_sentinel (request : Request) (d : option Z)
  (st : State) :
  accepts request "text/event-stream" = true ->
  custom_events request d = Some st ->
  disconnected (trace st) = false ->
  finalFrame (trace st) = Some eom.
Proof.
  intros Ha Hrun Hd. unfold custom_events in Hrun.
  rewrite Ha in Hrun. cbn [negb] in Hrun.
  destruct (custom_events_loop_detects 11 d 0
              (response_writeHead 200 eventStreamHeaders start))
    as (i & st' & Hl & Hdet);
    [vm_compute; lia | vm_compute; repeat split; discriminate |].
  rewrite Hl in Hrun. injection Hrun as <-.
  destruct Hdet as (Hab & _).
  destruct (aborted st') eqn:Hst; cbn [negb] in *.
  - unfold response_end, emit in Hd. cbn [trace] in Hd.
    rewrite disconnected_app, <- Hab in Hd. discriminate.
  - apply custom_events_loop_undisturbed in Hl; [| exact Hst | reflexivity].
    unfold response_end, response_write, emit. cbn [trace].
    rewrite <- app_assoc. apply finalFrame_marker, Hl.
Qed.

(** [/custom-events-with-id], started at or before the end of the stream:
    a run that ends normally has the [eom] event as its final frame. *)
Lemma custom_events_with_id_sentinel (request : Request) (d : option Z)
  (st : State) :
  accepts request "text/event-stream" = true ->
  custom_events_with_id request d = Some st ->
  startIndex request <= 10 ->
  endsNormally request st ->
  finalFrame (trace st) = Some eom.
Proof.
  intros Ha Hrun Hstart [Hd Hids]. unfold custom_events_with_id in Hrun.
  rewrite Ha in Hrun. cbn [negb] in Hrun. cbv zeta in Hrun.
  unfold startIndex in *.
  pose proof (resume_state (header request "Last-Event-Id")
                (response_writeHead 200 eventStreamHeaders start)) as Hst0.
  pose proof (resume_index (header request "Last-Event-Id")
                (response_writeHead 200 eventStreamHeaders start))
    as [Hi0 Hpos].
  rewrite <- Hi0 in Hstart, Hids. clear Hi0.
  destruct (resume _ _) as [i0 st0]. cbn [fst snd] in *.
  assert (Hfacts : detectsDisconnect st0 /\ hasEnd (trace st0) = false
                   /\ eventIds (trace st0) = [])
    by (destruct Hst0 as [-> | ->]; vm_compute; repeat split;
        discriminate).
  destruct Hfacts as (Hdet0 & He0 & Hids0).
  destruct (custom_events_with_id_loop_detects
              (S (Z.to_nat (10 - i0))) d i0 st0)
    as (i & st' & Hl & Hdet); [lia | exact Hdet0 |].
  rewrite Hl in Hrun. injection Hrun as <-.
  destruct Hdet as (Hab & _).
  destruct (aborted st') eqn:Hst.
  - rewrite andb_false_r in Hd.
    unfold response_end, emit in Hd. cbn [trace] in Hd.
    rewrite disconnected_app, <- Hab in Hd. discriminate.
  - apply custom_events_with_id_loop_undisturbed in Hl;
      [| exact Hst | exact Hpos | exact He0].
    destruct Hl as [He [(Hle & -> & Hout) | (Hgt & -> & Hout)]].
    + exfalso.
      replace (5 =? 10) with false in Hids by reflexivity.
      cbn [andb] in Hids.
      unfold response_end, emit in Hids. cbn [trace] in Hids.
      rewrite eventIds_app, Hout, Hids0 in Hids.
      apply (f_equal (@length Z)) in Hids.
      rewrite !length_app in Hids. unfold idRange in Hids.
      rewrite !length_idsFrom in Hids. simpl in Hids. lia.
    + replace (Z.max i0 10) with 10 by lia.
      rewrite Z.eqb_refl. cbn [negb andb].
      unfold response_end, response_write, emit. cbn [trace].
      rewrite <- app_assoc. apply finalFrame_marker, He.
Qed.

(** C7 (end-of-stream marker), as the code has it: [/data-only] always
    ends with the empty message as its final frame; [/custom-events] ends
    with the [eom] event as its final frame unless the client
    disconnected; and a run of [/custom-events-with-id] that started at
    an index of at most 10 (no cursor, an unusable one, or a cursor up to
    9) and ended normally, with every event up to 9 delivered and no
    disconnect, has the [eom] event as its final frame. *)
Theorem marker_on_normal_end (request : Request) (d : option Z) :
  accepts request "text/event-stream" = true ->
  (exists st,
      data_only request d = Some st
      /\ finalFrame (trace st) = Some emptyMessage)
  /\ (exists st,
         custom_events request d = Some st
         /\ (disconnected (trace st) = false ->
             finalFrame (trace st) = Some eom))
  /\ (exists st,
         custom_events_with_id request d = Some st
         /\ (startIndex request <= 10 -> endsNormally request st ->
             finalFrame (trace st) = Some eom)).
Proof.
  intros Ha. split; [| split].
  - destruct (data_only_body request d) as (st & Hrun & _ & Hf). eauto.
  - destruct (custom_events_detects request d) as (st & Hrun & _).
    exists st. split; [exact Hrun |].
    apply (custom_events_sentinel request d st Ha Hrun).
  - destruct (custom_events_with_id_detects request d) as (st & Hrun & _).
    exists st. split; [exact Hrun |].
    apply (custom_events_with_id_sentinel request d st Ha Hrun).
Qed.

Lemma marker_on_normal_end_witness :
  exists st,
    custom_events_with_id (get_with (Some "7")) None = Some st
    /\ startIndex (get_with (Some "7")) <= 10
    /\ endsNormally (get_with (Some "7")) st
    /\ finalFrame (trace st) = Some eom.
Proof.
  destruct (marker_on_normal_end (get_with (Some "7")) None eq_refl)
    as (_ & _ & st & Hrun & H).
  exists st. split; [exact Hrun |].
  assert (Hstart : startIndex (get_with (Some "7")) <= 10)
    by (vm_compute; discriminate).
  assert (Hn : endsNormally (get_with (Some "7")) st).
  { vm_compute in Hrun. injection Hrun as <-. split; reflexivity. }
  split; [exact Hstart |]. split; [exact Hn | exact (H Hstart Hn)].
Defined.

(** C7 as stated fails at a cursor past the end: the request
    [Last-Event-Id: 10] is answered on a connection the client keeps open,
    nothing is left to deliver, and the response is ended without the
    [eom] event or any other frame. *)
Lemma cursor_10_ends_without_marker :
  exists st,
    custom_events_with_id (get_with (Some "10")) None = Some st
    /\ endsNormally (get_with (Some "10")) st
    /\ hasEnd (trace st) = true
    /\ chunks (trace st) = []
    /\ finalFrame (trace st) <> Some eom.
Proof.
  eexists. split; [vm_compute; reflexivity |].
  repeat split; try reflexivity. discriminate.
Qed.

(** C1 (resumability), as the code has it: a resumed request with a
    usable cursor [k] between 5 and 9, on a connection the client keeps
    open, is answered with exactly the events [k+1 .. 9], in increasing
    order; a cursor below 5 is answered with [k+1 .. 5] only, because the
    handler breaks off after event 5. *)
Theorem resumes_after_cursor (request : Request) (h : string) (k : Z) :
  accepts request "text/event-stream" = true ->
  header request "Last-Event-Id" = Some h ->
  parseInt h = Some k -> 0 <= k <= 9 ->
  exists st,
    custom_events_with_id request None = Some st
    /\ eventIds (trace st) = idRange (k + 1) (if k <? 5 then 5 else 9).
Proof.
  intros Ha Hh Hp Hk.
  rewrite (with_id_resumed request None h k Ha Hh Hp) by lia.
  assert (Hcases : k = 0 \/ k = 1 \/ k = 2 \/ k = 3 \/ k = 4 \/ k = 5
                   \/ k = 6 \/ k = 7 \/ k = 8 \/ k = 9) by lia.
  clear - Hcases.
  repeat (destruct Hcases as [-> | Hcases]); try subst k;
    (eexists; split; [vm_compute; reflexivity | vm_compute; reflexivity]).
Qed.

Lemma resumes_after_cursor_witness :
  exists st,
    custom_events_with_id (get_with (Some "5")) None = Some st
    /\ eventIds (trace st) = [6; 7; 8; 9].
Proof.
  apply (resumes_after_cursor (get_with (Some "5")) "5" 5);
    [reflexivity | reflexivity | reflexivity | lia].
Defined.

(** C1 as stated fails below the cut: after last-seen id 2 the events
    3, 4 and 5 are emitted, and 6 to 9 never are. *)
Lemma resume_from_2_stops_at_5 :
  ~ (exists st,
       custom_events_with_id (get_with (Some "2")) None = Some st
       /\ eventIds (trace st) = idRange 3 9).
Proof.
  intros (st & Hrun & Hids).
  vm_compute in Hrun. injection Hrun as <-.
  vm_compute in Hids. discriminate Hids.
Qed.

End SseFacts.

(** ** The auth context, along one chain of calls *)

Module AuthContextFacts.
Import AuthContext.

Lemma getAuthContext_in_scope (context : AuthContext) :
  runWithAuthContext context getAuthContext = Some context.
Proof. reflexivity. Qed.

Lemma getAuthContext_innermost (outer inner : AuthContext) :
  runWithAuthContext outer
    (fun _ => runWithAuthContext inner getAuthContext)
  = Some inner.
Proof. reflexivity. Qed.

Lemma outside_any_scope :
  getAuthContext None = None /\ isAuthenticatedNow None = false
  /\ getTokenClaims None = None.
Proof. repeat split. Qed.

End AuthContextFacts.

(** ** The transport registry *)

Module RegistryFacts.
Import Js Http Registry.

Lemma remove_twice (sid : string) (transports : Registry.t) :
  remove sid (remove sid transports) = remove sid transports.
Proof. apply delete_delete_eq. Qed.

Lemma remove_absent (sid : string) (transports : Registry.t) :
  ¬ live transports sid -> remove sid transports = transports.
Proof.
  intros H. apply delete_id.
  destruct (transports !! sid) eqn:E; [| reflexivity].
  exfalso. apply H. unfold live. rewrite E. eauto.
Qed.

(** An own property shadows the prototype; a key that is neither reads
    as [undefined]. *)
Lemma get_own (transports : Registry.t) (sid : string) (tr : Transport) :
  transports !! sid = Some tr -> get transports sid = Some (Own tr).
Proof. intros H. unfold get. rewrite H. reflexivity. Qed.

Lemma get_unknown (transports : Registry.t) (sid : string) :
  ¬ live transports sid -> sid ∉ objectPrototypeKeys ->
  get transports sid = None.
Proof.
  intros Hl Hp. unfold get.
  destruct (transports !! sid) eqn:E.
  - exfalso. apply Hl. unfold live. rewrite E. eauto.
  - rewrite bool_decide_eq_false_2 by exact Hp. reflexivity.
Qed.

Lemma get_inherited (transports : Registry.t) (sid : string) :
  ¬ live transports sid -> sid ∈ objectPrototypeKeys ->
  get transports sid = Some (Inherited sid).
Proof.
  intros Hl Hp. unfold get.
  destruct (transports !! sid) eqn:E.
  - exfalso. apply Hl. unfold live. rewrite E. eauto.
  - rewrite bool_decide_eq_true_2 by exact Hp. reflexivity.
Qed.

(** C9 (idempotent removal): in both servers the [onclose] cleanup run
    twice leaves the registry as running it once does, for every registry
    and every transport; and when the transport's id is not in the
    registry the cleanup leaves the registry as it is. *)
Theorem onclose_idempotent (tr : Transport) (transports : Registry.t) :
  DemoServer.onclose tr (DemoServer.onclose tr transports)
  = DemoServer.onclose tr transports
  /\ AuthServer.onclose tr (AuthServer.onclose tr transports)
     = AuthServer.onclose tr transports
  /\ (unregistered tr transports ->
      DemoServer.onclose tr transports = transports
      /\ AuthServer.onclose tr transports = transports).
Proof.
  unfold DemoServer.onclose, AuthServer.onclose, unregistered.
  destruct (sessionId tr) as [sid |]; [| repeat split].
  destruct (truthy sid); cbn [andb].
  2:{ repeat split; intros; reflexivity. }
  split; [| split].
  - destruct (bool_decide (is_Some (get transports sid))) eqn:E;
      [| rewrite E; reflexivity].
    destruct (bool_decide (is_Some (get (remove sid transports) sid)));
      [apply remove_twice | reflexivity].
  - apply remove_twice.
  - intros Hl. rewrite (remove_absent _ _ (Hl sid eq_refl)).
    destruct (bool_decide _); split; reflexivity.
Qed.

Lemma onclose_idempotent_witness :
  let transports : Registry.t := {[ "s2" := mkTransport (Some "s2") ]} in
  unregistered (mkTransport (Some "s1")) transports
  /\ DemoServer.onclose (mkTransport (Some "s1")) transports = transports
  /\ AuthServer.onclose (mkTransport (Some "s1")) transports = transports.
Proof.
  intros transports.
  assert (H : unregistered (mkTransport (Some "s1")) transports).
  { intros sid [= <-] [tr Htr]. subst transports.
    rewrite lookup_singleton_ne in Htr; [discriminate | discriminate]. }
  split; [exact H |].
  exact (proj2 (proj2 (onclose_idempotent (mkTransport (Some "s1"))
                         transports)) H).
Defined.

End RegistryFacts.

(** ** The [/mcp] routers *)

Module RouterFacts.
Import Js Http Registry RegistryFacts Scenario.

Lemma prototype_key_truthy (sid : string) :
  sid ∈ objectPrototypeKeys -> truthy sid = true.
Proof.
  unfold objectPrototypeKeys. intros H.
  repeat (apply elem_of_cons in H as [-> | H]; [reflexivity |]).
  apply elem_of_nil in H. contradiction.
Qed.

Section Routers.
Variable isInitializeRequest : option Json.t -> bool.
Variable validateToken : string -> list string -> option Json.t.
Variable env : ScalekitConfig.Env.
Variable sdk : Transport -> Request -> SdkRun.

(** The session ids that no object inherits are turned away as the
    specification says: 400, the JSON-RPC error -32000 with a null id,
    the registry untouched and no transport called. *)
Lemma unknown_session_rejected (transports : Registry.t)
  (req : Request) :
  noLiveSession transports req ->
  (forall sid, headers req "mcp-session-id" = Some sid ->
               sid ∉ objectPrototypeKeys) ->
  (isInitializeRequest (body req) = false ->
   DemoServer.mcpPostHandler isInitializeRequest sdk transports req
   = Outcome.mk transports (Some AuthServer.noValidSessionId) [] false)
  /\ (AuthServer.asksInitialize req = false ->
      AuthServer.post sdk transports req
      = Outcome.mk transports (Some AuthServer.noValidSessionId) []
          false).
Proof.
  unfold noLiveSession, DemoServer.mcpPostHandler, AuthServer.post,
    DemoServer.sessionIdOf, AuthServer.sessionIdOf.
  intros Hl Hp.
  destruct (headers req "mcp-session-id") as [sid |]; cbn [mbind].
  - destruct (truthy sid); cbn [mbind option_bind].
    + rewrite (get_unknown transports sid Hl (Hp sid eq_refl)).
      split; intros _; reflexivity.
    + split; intros ->; rewrite ?andb_false_r; reflexivity.
  - split; intros ->; rewrite ?andb_false_r; reflexivity.
Qed.

(** C3 (session errors) at a session id that [Object.prototype]
    defines: the id names no live transport, yet [transports[sessionId]]
    is truthy, the handlers take it for a transport and the call of
    [handleRequest] on it throws.  [mcpPostHandler] catches that and
    answers 500 with the JSON-RPC error -32603; the handler of the auth
    server lets the exception out and answers nothing. *)
Theorem inherited_session_id_not_rejected (transports : Registry.t)
  (req : Request) (sid : string) :
  headers req "mcp-session-id" = Some sid ->
  sid ∈ objectPrototypeKeys ->
  ¬ live transports sid ->
  noLiveSession transports req
  /\ DemoServer.mcpPostHandler isInitializeRequest sdk transports req
     = Outcome.mk transports
         (Some (mkResponse 500 []
                  (JsonBody
                     (DemoServer.getJsonRpcError
                        DemoServer.INTERNAL_SERVER_ERROR))))
         [] false
  /\ AuthServer.post sdk transports req
     = Outcome.mk transports None [] true.
Proof.
  intros Hh Hp Hl.
  unfold noLiveSession, DemoServer.mcpPostHandler, AuthServer.post,
    DemoServer.sessionIdOf, AuthServer.sessionIdOf.
  rewrite Hh, (prototype_key_truthy sid Hp). cbn [mbind option_bind].
  rewrite (get_inherited transports sid Hl Hp).
  repeat split. exact Hl.
Qed.

(** *** The auth gate *)

(** The middleware lets a request through exactly when it carries a
    bearer token that is not empty and validates. *)
Lemma requiredAuthMiddleware_cases (req : Request) :
  match AuthMiddleware.requiredAuthMiddleware validateToken env req with
  | AuthMiddleware.Next req' =>
      exists tok claims,
        goodCredentials validateToken env req tok claims
        /\ req' = mkRequest (method req) (headers req) (body req)
                    (Some tok) (Some claims) (Some true)
  | AuthMiddleware.Respond res =>
      res = mkResponse 401 [ScalekitConfig.WWW_AUTHENTICATE_HEADER env]
              NoBody
  end.
Proof.
  unfold AuthMiddleware.requiredAuthMiddleware, goodCredentials,
    AuthMiddleware.unauthorized.
  destruct (AuthMiddleware.bearerToken _) as [tok |]; [| reflexivity].
  destruct (truthy tok) eqn:Ht; [| reflexivity].
  destruct (validateToken tok _) as [claims |] eqn:Hv; [| reflexivity].
  exists tok, claims. auto.
Qed.

(** Whatever the auth server hands to a transport, it hands over in an
    auth context built from the request. *)
Lemma deliveries_in_context (transports : Registry.t) (req : Request)
  (dl : Outcome.Delivery) :
  dl ∈ Outcome.delivered (AuthServer.post sdk transports req)
  \/ dl ∈ Outcome.delivered
            (AuthServer.handleSessionRequest sdk transports req) ->
  Outcome.context dl
  = Some (AuthServer.authContextOf req (headers req "mcp-session-id")).
Proof.
  unfold AuthServer.post, AuthServer.handleSessionRequest,
    AuthContext.runWithAuthContext, AuthServer.handleRequest.
  destruct (AuthServer.sessionIdOf req ≫= get transports)
    as [[tr | name] |]; cbn [Outcome.delivered].
  - intros [H | H]; apply list_elem_of_singleton in H as ->; reflexivity.
  - intros [H | H]; apply elem_of_nil in H; contradiction.
  - destruct (_ && _); cbn [Outcome.delivered];
      intros [H | H];
      try (apply elem_of_nil in H; contradiction);
      apply list_elem_of_singleton in H as ->; reflexivity.
Qed.

(** C4 (auth gate): a request to [/mcp] of the auth server without an
    [Authorization] header, or with a bearer token that fails
    validation, is answered 401 with the [WWW-Authenticate] header,
    whose value names the metadata URL of the protected resource; the
    registry is untouched and no transport is called.  A request whose
    token validates passes the middleware with [isAuthenticated] set,
    and every call of a transport it leads to runs in an auth context
    in which [isAuthenticated()] is true. *)
Theorem auth_gate (transports : Registry.t) (req : Request) :
  (badCredentials validateToken env req ->
   AuthMiddleware.requiredAuthMiddleware validateToken env req
   = AuthMiddleware.Respond
       (mkResponse 401 [ScalekitConfig.WWW_AUTHENTICATE_HEADER env]
          NoBody)
   /\ fst (ScalekitConfig.WWW_AUTHENTICATE_HEADER env)
      = "WWW-Authenticate"
   /\ mentions (snd (ScalekitConfig.WWW_AUTHENTICATE_HEADER env))
        (ScalekitConfig.resourceMetadataUrl env)
   /\ AuthServer.app validateToken env sdk transports req
      = Outcome.mk transports
          (Some (mkResponse 401
                   [ScalekitConfig.WWW_AUTHENTICATE_HEADER env] NoBody))
          [] false)
  /\ (forall tok claims,
        goodCredentials validateToken env req tok claims ->
        exists req',
          AuthMiddleware.requiredAuthMiddleware validateToken env req
          = AuthMiddleware.Next req'
          /\ isAuthenticated req' = Some true
          /\ forall dl,
              dl ∈ Outcome.delivered
                     (AuthServer.app validateToken env sdk transports req)
              -> AuthContext.isAuthenticatedNow (Outcome.context dl)
                 = true).
Proof.
  pose proof (requiredAuthMiddleware_cases req) as Hc.
  split.
  - intros Hbad. unfold AuthServer.app.
    destruct (AuthMiddleware.requiredAuthMiddleware validateToken env req)
      as [req' | res].
    + exfalso. destruct Hc as (tok & claims & (Hb & Ht & Hv) & _).
      destruct Hbad as [Hnone | (tok' & Hb' & Hv')].
      * rewrite Hnone in Hb. discriminate.
      * congruence.
    + subst res. repeat split.
      exists ("Bearer realm=" ++ dq ++ "OAuth" ++ dq
              ++ ", resource_metadata=" ++ dq)%string, dq.
      reflexivity.
  - intros tok claims (Hb & Ht & Hv). unfold AuthServer.app.
    unfold AuthMiddleware.requiredAuthMiddleware in *.
    rewrite Hb, Ht, Hv in *. eexists. split; [reflexivity |].
    split; [reflexivity |].
    intros dl Hdl. cbn [method] in Hdl.
    set (req' := mkRequest _ _ _ _ _ _) in Hdl.
    rewrite (deliveries_in_context transports req' dl); [reflexivity |].
    destruct (method req); auto.
Qed.

(** *** Session termination *)

Lemma wf_remove (sid : string) (transports : Registry.t) :
  wf transports -> wf (remove sid transports).
Proof.
  intros H k tr Hk. unfold remove in Hk.
  apply lookup_delete_Some in Hk as [_ Hk]. exact (H k tr Hk).
Qed.

Lemma wf_set (sid : string) (transports : Registry.t) :
  wf transports -> wf (set sid (mkTransport (Some sid)) transports).
Proof.
  intros H k tr Hk. unfold set in Hk.
  apply lookup_insert_Some in Hk as [[<- <-] | [_ Hk]];
    [reflexivity | exact (H k tr Hk)].
Qed.

(** The registry stays well formed under every request to the auth
    server. *)
Lemma app_preserves_wf (transports : Registry.t) (req : Request) :
  wf transports ->
  wf (Outcome.transports
        (AuthServer.app validateToken env sdk transports req)).
Proof.
  intros H.
  assert (Hh : forall tr r store,
             wf (Outcome.transports
                   (AuthServer.handleRequest sdk tr r transports store))).
  { intros tr r store. unfold AuthServer.handleRequest.
    cbn [Outcome.transports]. unfold AuthServer.onclose.
    destruct (initialized (sdk tr r)) as [sid0 |];
      destruct (closed (sdk tr r)); cbn [sessionId];
      try destruct (sessionId tr) as [sid1 |];
      try destruct (truthy _);
      auto using wf_set, wf_remove. }
  unfold AuthServer.app.
  destruct (AuthMiddleware.requiredAuthMiddleware _ _ _) as [req' | res];
    [| exact H].
  unfold AuthServer.post, AuthServer.handleSessionRequest,
    AuthContext.runWithAuthContext.
  destruct (method req');
    destruct (AuthServer.sessionIdOf req' ≫= get transports)
      as [[tr | name] |];
    try destruct (_ && _); try apply Hh; exact H.
Qed.

(** C5 (session termination), as the code has it.  On the auth server
    a DELETE that carries the id of a live session goes to that
    session's transport, in the auth context of the request; when the
    transport closes on it, its [onclose] removes the id from the
    registry, and a later request under that id is answered as one
    without a valid session.  On the demo server DELETE is answered 405
    "Method not allowed": no transport is called and the session
    stays. *)
Theorem delete_terminates_on_auth_server (transports : Registry.t)
  (req : Request) (sid : string) (tr : Transport) :
  wf transports ->
  method req = DELETE ->
  headers req "mcp-session-id" = Some sid ->
  truthy sid = true ->
  sid ∉ objectPrototypeKeys ->
  transports !! sid = Some tr ->
  let o := AuthServer.handleSessionRequest sdk transports req in
  Outcome.delivered o
  = [Outcome.mkDelivery tr
       (Some (AuthServer.authContextOf req (Some sid)))]
  /\ (closed (sdk tr req) = true -> initialized (sdk tr req) = None ->
      sessionTerminated sid tr o
      /\ forall later,
          headers later "mcp-session-id" = Some sid ->
          AuthServer.post sdk (Outcome.transports o) later
          = Outcome.mk (Outcome.transports o)
              (Some AuthServer.noValidSessionId) [] false
          /\ AuthServer.handleSessionRequest sdk (Outcome.transports o)
               later
             = Outcome.mk (Outcome.transports o)
                 (Some (mkResponse 400 []
                          (Text "Invalid or missing session ID")))
                 [] false)
  /\ DemoServer.app isInitializeRequest sdk transports req
     = Outcome.mk transports
         (Some (mkResponse 405 []
                  (Stringified
                     (DemoServer.getJsonRpcError
                        DemoServer.METHOD_NOT_ALLOWED_ERROR))))
         [] false.
Proof.
  intros Hwf Hm Hh Ht Hp Htr o. subst o.
  unfold AuthServer.handleSessionRequest, AuthServer.sessionIdOf.
  rewrite Hh, Ht. cbn [mbind option_bind].
  rewrite (get_own transports sid tr Htr).
  unfold AuthContext.runWithAuthContext, AuthServer.handleRequest.
  cbn [Outcome.delivered Outcome.transports AuthContext.getAuthContext].
  split; [reflexivity |]. split.
  - intros Hc Hi. rewrite Hc, Hi.
    unfold AuthServer.onclose. rewrite (Hwf sid tr Htr), Ht.
    assert (Hgone : ¬ live (remove sid transports) sid).
    { unfold live, remove. rewrite lookup_delete_eq.
      intros [x Hx]. discriminate. }
    split; [split; [eauto | exact Hgone] |].
    intros later Hl. unfold AuthServer.post, AuthServer.sessionIdOf.
    rewrite Hl, Ht. cbn [mbind option_bind].
    rewrite (get_unknown _ sid Hgone Hp). split; reflexivity.
  - unfold DemoServer.app. rewrite Hm. reflexivity.
Qed.
End Routers.

Lemma auth_gate_witness :
  AuthServer.app acceptsGoodToken devEnv closesOnDelete oneSession
    (rpc POST (Some sampleSession) None "tools/list")
  = Outcome.mk oneSession
      (Some (mkResponse 401
               [("WWW-Authenticate",
                 ("Bearer realm=" ++ dq ++ "OAuth" ++ dq
                  ++ ", resource_metadata=" ++ dq
                  ++ "http://localhost:3000/mcp/.well-known/oauth-protected-resource"
                  ++ dq)%string)]
               NoBody))
      [] false
  /\ exists req',
      AuthMiddleware.requiredAuthMiddleware acceptsGoodToken devEnv
        (rpc POST (Some sampleSession) (Some "Bearer good-token")
           "tools/list")
      = AuthMiddleware.Next req'
      /\ isAuthenticated req' = Some true
      /\ forall dl,
          dl ∈ Outcome.delivered
                 (AuthServer.app acceptsGoodToken devEnv closesOnDelete
                    oneSession
                    (rpc POST (Some sampleSession)
                       (Some "Bearer good-token") "tools/list"))
          -> AuthContext.isAuthenticatedNow (Outcome.context dl) = true.
Proof.
  split.
  - apply (auth_gate acceptsGoodToken devEnv closesOnDelete oneSession
             (rpc POST (Some sampleSession) None "tools/list")).
    left. reflexivity.
  - apply (proj2 (auth_gate acceptsGoodToken devEnv closesOnDelete
                    oneSession
                    (rpc POST (Some sampleSession)
                       (Some "Bearer good-token") "tools/list"))
             "good-token" (Json.Obj [("sub", Json.Str "alice")])).
    repeat split; reflexivity.
Defined.

Lemma sampleSession_not_inherited : sampleSession ∉ objectPrototypeKeys.
Proof.
  unfold objectPrototypeKeys. intros H.
  repeat (apply elem_of_cons in H as [H | H]; [discriminate H |]).
  apply elem_of_nil in H. contradiction.
Qed.

Lemma oneSession_wf : wf oneSession.
Proof.
  intros sid tr H. unfold oneSession in H.
  apply lookup_singleton_Some in H as [<- <-]. reflexivity.
Qed.

Lemma delete_terminates_on_auth_server_witness :
  let req := rpc DELETE (Some sampleSession) (Some "Bearer good-token")
               "terminate" in
  let o := AuthServer.handleSessionRequest closesOnDelete oneSession req in
  Outcome.delivered o
  = [Outcome.mkDelivery sampleTransport
       (Some (AuthServer.authContextOf req (Some sampleSession)))]
  /\ sessionTerminated sampleSession sampleTransport o
  /\ Outcome.response
       (DemoServer.app initializeByMethod closesOnDelete oneSession req)
     = Some (mkResponse 405 []
               (Stringified
                  (DemoServer.getJsonRpcError
                     DemoServer.METHOD_NOT_ALLOWED_ERROR))).
Proof.
  intros req o.
  destruct (delete_terminates_on_auth_server initializeByMethod
              closesOnDelete oneSession req sampleSession sampleTransport
              oneSession_wf eq_refl eq_refl eq_refl
              sampleSession_not_inherited
              (lookup_singleton_eq sampleSession sampleTransport))
    as (Hd & Hc & Hdemo).
  split; [exact Hd |].
  split; [exact (proj1 (Hc eq_refl eq_refl)) |].
  fold req in Hdemo. rewrite Hdemo. reflexivity.
Defined.

(** C5 as stated fails on the demo server: the DELETE of a live session
    reaches no transport, and the session stays, even with an SDK whose
    transports close on DELETE. *)
Lemma demo_server_refuses_delete :
  ~ sessionTerminated sampleSession sampleTransport
      (DemoServer.app initializeByMethod closesOnDelete oneSession
         (rpc DELETE (Some sampleSession) None "terminate")).
Proof.
  intros [[ctx H] _]. discriminate H.
Qed.

Lemma inherited_session_id_not_rejected_witness :
  noLiveSession ∅ (listTools (Some "constructor"))
  /\ initializeByMethod (body (listTools (Some "constructor"))) = false
  /\ DemoServer.mcpPostHandler initializeByMethod closesOnDelete ∅
       (listTools (Some "constructor"))
     = Outcome.mk ∅
         (Some (mkResponse 500 []
                  (JsonBody
                     (Json.Obj
                        [("jsonrpc", Json.Str "2.0");
                         ("error",
                          Json.Obj
                            [("code", Json.Num (-32603));
                             ("message", Json.Str "Internal server error")]);
                         ("id", Json.Null)]))))
         [] false.
Proof.
  assert (Hkey : "constructor" ∈ objectPrototypeKeys)
    by (unfold objectPrototypeKeys; apply elem_of_cons; left; reflexivity).
  assert (Hdead : ¬ live (∅ : Registry.t) "constructor")
    by (intros [tr Htr]; rewrite lookup_empty in Htr; discriminate).
  destruct (inherited_session_id_not_rejected initializeByMethod
              closesOnDelete ∅ (listTools (Some "constructor"))
              "constructor" eq_refl Hkey Hdead)
    as (Hnone & Hdemo & _).
  split; [exact Hnone |]. split; [reflexivity | exact Hdemo].
Defined.

End RouterFacts.

(** ** More on the SSE demo router *)

Module SseRunFacts.
Import Js Sse SseRuns SseFacts.
Local Open Scope list_scope.

Lemma idsFrom_bounds (z : Z) (n : nat) (k : Z) :
  k ∈ idsFrom z n -> z <= k < z + Z.of_nat n.
Proof.
  revert z. induction n as [| n IH]; intros z H; simpl in H.
  - apply elem_of_nil in H. contradiction.
  - apply elem_of_cons in H as [-> | H]; [lia |].
    apply IH in H. lia.
Qed.

(** What the loop of [/custom-events-with-id] adds to the trace carries
    consecutive ids that begin at the index it was entered with and stay
    below 10. *)
Lemma custom_events_with_id_loop_range (fuel : nat) (d : option Z) :
  forall (i : Z) (st : State),
    0 <= i -> (Z.to_nat (10 - i) < fuel)%nat ->
    exists i' st' out n,
      custom_events_with_id_loop fuel d i st = Some (i', st')
      /\ trace st' = trace st ++ out
      /\ eventIds out = idsFrom i n
      /\ (n = 0%nat \/ i + Z.of_nat n <= 10).
Proof.
  induction fuel as [| fuel IH]; intros i st H0 Hf; [lia |].
  rewrite custom_events_with_id_loop_step.
  destruct (Z.ltb_spec i 10) as [Hi | Hi];
    [| exists i, st, [], 0%nat; rewrite app_nil_r; auto].
  destruct (aborted st);
    [exists i, st, [], 0%nat; rewrite app_nil_r; auto |].
  cbv zeta.
  destruct (sleep_trace (closes d i) st) as (u & Hu & Hids).
  destruct (aborted (sleep 1000 (closes d i) cleanup st));
    [exists i, (sleep 1000 (closes d i) cleanup st), u, 0%nat; auto |].
  set (st2 := response_write _ (response_write _ (response_write _ _))).
  assert (Ht2 : exists w, trace st2 = trace st ++ u ++ w /\ eventIds w = [i]).
  { eexists. split.
    - subst st2. unfold response_write, emit. cbn [trace]. rewrite Hu.
      rewrite <- !app_assoc. reflexivity.
    - apply eventIds_frame. lia. }
  destruct Ht2 as (w & Ht2 & Hw).
  destruct (i =? 5).
  - exists i, st2, (u ++ w), 1%nat.
    split; [reflexivity |]. split; [exact Ht2 |].
    split; [rewrite eventIds_app, Hids, Hw; reflexivity | right; lia].
  - destruct (IH (i + 1) st2) as (i' & st' & out & n & Hl & Ht & Ho & Hb);
      [lia | lia |].
    exists i', st', (u ++ w ++ out), (S n).
    split; [exact Hl |]. split.
    + rewrite Ht, Ht2, <- !app_assoc. reflexivity.
    + split; [rewrite !eventIds_app, Hids, Hw, Ho; reflexivity |].
      right. destruct Hb as [-> | Hb]; lia.
Qed.

(** The run of [/custom-events-with-id] as a whole: the ids of the
    response, for a request the handler accepts. *)
Lemma custom_events_with_id_ids (request : Request) (d : option Z) :
  accepts request "text/event-stream" = true ->
  exists st n,
    custom_events_with_id request d = Some st
    /\ eventIds (trace st) = idsFrom (startIndex request) n
    /\ 0 <= startIndex request
    /\ (n = 0%nat \/ startIndex request + Z.of_nat n <= 10).
Proof.
  intros Ha. unfold custom_events_with_id, startIndex.
  rewrite Ha. cbn [negb]. cbv zeta.
  pose proof (resume_state (header request "Last-Event-Id")
                (response_writeHead 200 eventStreamHeaders start)) as Hst0.
  pose proof (resume_index (header request "Last-Event-Id")
                (response_writeHead 200 eventStreamHeaders start))
    as [Hi0 Hpos].
  rewrite <- Hi0. clear Hi0.
  destruct (resume _ _) as [i0 st0]. cbn [fst snd] in *.
  assert (He0 : eventIds (trace st0) = [])
    by (destruct Hst0 as [-> | ->]; reflexivity).
  destruct (custom_events_with_id_loop_range (S (Z.to_nat (10 - i0))) d i0 st0)
    as (i & st & out & n & Hl & Ht & Ho & Hb); [lia | lia |].
  rewrite Hl. eexists. exists n. split; [reflexivity |].
  split; [| split; [exact Hpos | exact Hb]].
  destruct ((i =? 10) && negb (aborted st));
    unfold response_end, response_write, emit; cbn [trace];
    rewrite Ht, !eventIds_app, He0, Ho; cbn; rewrite ?app_nil_r;
    reflexivity.
Qed.

(** X1.  Whatever the cursor and whenever the client leaves, the events
    of one response of [/custom-events-with-id] carry consecutive ids,
    beginning at the start index and never reaching 10. *)
Theorem events_consecutive_below_10 (request : Request) (d : option Z) :
  accepts request "text/event-stream" = true ->
  exists st n,
    custom_events_with_id request d = Some st
    /\ eventIds (trace st) = idsFrom (startIndex request) n
    /\ forall k, k ∈ eventIds (trace st) -> startIndex request <= k <= 9.
Proof.
  intros Ha.
  destruct (custom_events_with_id_ids request d Ha)
    as (st & n & Hrun & Hids & Hpos & Hb).
  exists st, n. split; [exact Hrun |]. split; [exact Hids |].
  intros k Hk. rewrite Hids in Hk. apply idsFrom_bounds in Hk.
  destruct Hb as [-> | Hb]; lia.
Qed.

Lemma events_consecutive_below_10_witness :
  exists st n,
    custom_events_with_id (get_with (Some "3")) (Some 8) = Some st
    /\ eventIds (trace st) = idsFrom (startIndex (get_with (Some "3"))) n
    /\ forall k, k ∈ eventIds (trace st) ->
                 startIndex (get_with (Some "3")) <= k <= 9.
Proof.
  exact (events_consecutive_below_10 (get_with (Some "3")) (Some 8) eq_refl).
Defined.

(** X2.  Every id the server writes is a cursor it understands: sent
    back as [Last-Event-Id], the id [k] of any event of any response makes
    the next response start at [k + 1]. *)
Theorem emitted_id_resumes_after (request : Request) (d : option Z) :
  accepts request "text/event-stream" = true ->
  exists st,
    custom_events_with_id request d = Some st
    /\ forall k, k ∈ eventIds (trace st) -> startIndex (reconnect k) = k + 1.
Proof.
  intros Ha.
  destruct (custom_events_with_id_ids request d Ha)
    as (st & n & Hrun & Hids & Hpos & Hb).
  exists st. split; [exact Hrun |].
  intros k Hk. rewrite Hids in Hk. apply idsFrom_bounds in Hk.
  assert (Hcases : k = 0 \/ k = 1 \/ k = 2 \/ k = 3 \/ k = 4 \/ k = 5
                   \/ k = 6 \/ k = 7 \/ k = 8 \/ k = 9)
    by (destruct Hb as [-> | Hb]; lia).
  clear - Hcases.
  repeat (destruct Hcases as [-> | Hcases]); try subst k; reflexivity.
Qed.

Lemma emitted_id_resumes_after_witness :
  exists st,
    custom_events_with_id (get_with None) (Some 4) = Some st
    /\ forall k, k ∈ eventIds (trace st) -> startIndex (reconnect k) = k + 1.
Proof.
  exact (emitted_id_resumes_after (get_with None) (Some 4) eq_refl).
Defined.

(** X3.  The stream that is cut after event 5 is completed by one
    reconnection: a client that starts at or below 5, stays connected and
    asks again with the last id it saw receives every event from its start
    index to 9 exactly once, the first response without the [eom] event
    and the second one closed by it. *)
Theorem reconnect_completes_the_stream (request : Request) :
  accepts request "text/event-stream" = true ->
  startIndex request <= 5 ->
  exists st1 lastSeen st2,
    custom_events_with_id request None = Some st1
    /\ last (eventIds (trace st1)) = Some lastSeen
    /\ finalFrame (trace st1) <> Some eom
    /\ custom_events_with_id (reconnect lastSeen) None = Some st2
    /\ eventIds (trace st1) ++ eventIds (trace st2)
       = idRange (startIndex request) 9
    /\ finalFrame (trace st2) = Some eom.
Proof.
  intros Ha Hs. unfold custom_events_with_id at 1.
  rewrite Ha. cbn [negb]. cbv zeta. unfold startIndex in *.
  pose proof (resume_state (header request "Last-Event-Id")
                (response_writeHead 200 eventStreamHeaders start)) as Hst0.
  pose proof (resume_index (header request "Last-Event-Id")
                (response_writeHead 200 eventStreamHeaders start))
    as [Hi0 Hpos].
  rewrite <- Hi0 in *. clear Hi0.
  destruct (resume _ _) as [i0 st0]. cbn [fst snd] in *.
  assert (Hcases : i0 = 0 \/ i0 = 1 \/ i0 = 2 \/ i0 = 3 \/ i0 = 4
                   \/ i0 = 5) by lia.
  clear Hs Hpos.
  destruct Hst0 as [-> | ->];
    repeat (destruct Hcases as [-> | Hcases]); try subst i0;
    (eexists; exists 5; eexists;
     split; [vm_compute; reflexivity |];
     split; [reflexivity |];
     split; [discriminate |];
     split; [vm_compute; reflexivity |];
     split; reflexivity).
Qed.

Lemma reconnect_completes_the_stream_witness :
  exists st1 lastSeen st2,
    custom_events_with_id (get_with (Some "1")) None = Some st1
    /\ last (eventIds (trace st1)) = Some lastSeen
    /\ finalFrame (trace st1) <> Some eom
    /\ custom_events_with_id (reconnect lastSeen) None = Some st2
    /\ eventIds (trace st1) ++ eventIds (trace st2) = [2; 3; 4; 5; 6; 7; 8; 9]
    /\ finalFrame (trace st2) = Some eom.
Proof.
  apply (reconnect_completes_the_stream (get_with (Some "1")) eq_refl).
  vm_compute. discriminate.
Defined.

(** The loop of [/custom-events] asks about the client only at the
    indices it passes through. *)
Lemma custom_events_loop_ext (fuel : nat) (d d' : option Z) :
  forall (i : Z) (st : State),
    (forall j, i <= j < 10 -> closes d j = closes d' j) ->
    custom_events_loop fuel d i st = custom_events_loop fuel d' i st.
Proof.
  induction fuel as [| fuel IH]; intros i st H; [reflexivity |].
  rewrite !custom_events_loop_step.
  destruct (Z.ltb_spec i 10) as [Hi | Hi]; [| reflexivity].
  rewrite (H i) by lia.
  destruct (aborted st); [reflexivity |]. cbv zeta.
  destruct (aborted (sleep 1000 (closes d' i) cleanup st)); [reflexivity |].
  apply IH. intros j Hj. apply H. lia.
Qed.

(** X4.  On [/custom-events] a client that leaves during the pause of
    iteration [j] has received exactly the events [0 .. j-1] and no [eom]
    event; a client that stays receives the ten events and then [eom]. *)
Theorem custom_events_delivers_completed_pauses (request : Request)
  (d : option Z) :
  accepts request "text/event-stream" = true ->
  exists st,
    custom_events request d = Some st
    /\ disconnected (trace st) = leftEarly d
    /\ chunks (trace st)
       = customEventsUpTo (completedPauses d)
         ++ (if leftEarly d then [] else [eom]).
Proof.
  intros Ha. unfold custom_events. rewrite Ha. cbn [negb]. cbv zeta.
  destruct d as [j |].
  - destruct (Z.leb_spec 0 j) as [H0 | H0];
      [destruct (Z.ltb_spec j 10) as [H10 | H10] |].
    + assert (Hcases : j = 0 \/ j = 1 \/ j = 2 \/ j = 3 \/ j = 4 \/ j = 5
                       \/ j = 6 \/ j = 7 \/ j = 8 \/ j = 9) by lia.
      clear H0 H10.
      repeat (destruct Hcases as [-> | Hcases]); try subst j;
        (eexists; split; [vm_compute; reflexivity |];
         split; vm_compute; reflexivity).
    + rewrite (custom_events_loop_ext 11 (Some j) None)
        by (intros k Hk; simpl; destruct (Z.eqb_spec k j); [lia | reflexivity]).
      unfold leftEarly, completedPauses.
      destruct (Z.leb_spec 0 j); [| lia].
      destruct (Z.ltb_spec j 10); [lia |].
      eexists; split; [vm_compute; reflexivity |];
        split; vm_compute; reflexivity.
    + rewrite (custom_events_loop_ext 11 (Some j) None)
        by (intros k Hk; simpl; destruct (Z.eqb_spec k j); [lia | reflexivity]).
      unfold leftEarly, completedPauses.
      destruct (Z.leb_spec 0 j); [lia |].
      eexists; split; [vm_compute; reflexivity |];
        split; vm_compute; reflexivity.
  - eexists; split; [vm_compute; reflexivity |];
      split; vm_compute; reflexivity.
Qed.

Lemma custom_events_delivers_completed_pauses_witness :
  exists st,
    custom_events (get_with None) (Some 2) = Some st
    /\ disconnected (trace st) = true
    /\ chunks (trace st) = customEvent 0 ++ customEvent 1.
Proof.
  exact (custom_events_delivers_completed_pauses (get_with None) (Some 2)
           eq_refl).
Defined.

Lemma statusLines_app (t u : list Action) :
  statusLines (t ++ u) = statusLines t ++ statusLines u.
Proof. apply omap_app. Qed.

Lemma statusLines_snoc (t : list Action) (a : Action) :
  match a with WriteHead _ _ | Status _ => False | _ => True end ->
  statusLines (t ++ [a]) = statusLines t.
Proof.
  intros H. rewrite statusLines_app.
  destruct a; try contradiction; apply app_nil_r.
Qed.

Lemma statusLines_write (c : string) (st : State) :
  statusLines (trace (response_write c st)) = statusLines (trace st).
Proof.
  unfold response_write, emit. cbn [trace].
  rewrite statusLines_app. apply app_nil_r.
Qed.

Lemma statusLines_sleep (b : bool) (st : State) :
  statusLines (trace (sleep 1000 b cleanup st)) = statusLines (trace st)
  /\ statusLines (trace (sleep 1000 b id st)) = statusLines (trace st).
Proof.
  unfold sleep, cleanup, response_end, emit.
  destruct b; [destruct (writableEnded st) |];
    cbn [trace aborted writableEnded id negb];
    rewrite !statusLines_snoc by exact I; split; reflexivity.
Qed.

Lemma data_only_loop_statusLines (fuel : nat) (d : option Z) :
  forall (i i' : Z) (st st' : State),
    data_only_loop fuel d i st = Some (i', st') ->
    statusLines (trace st') = statusLines (trace st).
Proof.
  induction fuel as [| fuel IH]; intros i i' st st' H; [discriminate |].
  simpl in H. destruct (i <? 10); [| injection H as <- <-; reflexivity].
  apply IH in H. rewrite H, statusLines_write.
  apply (statusLines_sleep (closes d i) st).
Qed.

Lemma custom_events_loop_statusLines (fuel : nat) (d : option Z) :
  forall (i i' : Z) (st st' : State),
    custom_events_loop fuel d i st = Some (i', st') ->
    statusLines (trace st') = statusLines (trace st).
Proof.
  induction fuel as [| fuel IH]; intros i i' st st' H; [discriminate |].
  rewrite custom_events_loop_step in H.
  destruct (i <? 10); [| injection H as <- <-; reflexivity].
  destruct (aborted st); [injection H as <- <-; reflexivity |].
  cbv zeta in H.
  destruct (aborted (sleep 1000 (closes d i) cleanup st)).
  - injection H as <- <-. apply (statusLines_sleep (closes d i) st).
  - apply IH in H. rewrite H, !statusLines_write.
    apply (statusLines_sleep (closes d i) st).
Qed.

Lemma custom_events_with_id_loop_statusLines (fuel : nat) (d : option Z) :
  forall (i i' : Z) (st st' : State),
    custom_events_with_id_loop fuel d i st = Some (i', st') ->
    statusLines (trace st') = statusLines (trace st).
Proof.
  induction fuel as [| fuel IH]; intros i i' st st' H; [discriminate |].
  rewrite custom_events_with_id_loop_step in H.
  destruct (i <? 10); [| injection H as <- <-; reflexivity].
  destruct (aborted st); [injection H as <- <-; reflexivity |].
  cbv zeta in H.
  destruct (aborted (sleep 1000 (closes d i) cleanup st)).
  - injection H as <- <-. apply (statusLines_sleep (closes d i) st).
  - destruct (i =? 5).
    + injection H as <- <-. rewrite !statusLines_write.
      apply (statusLines_sleep (closes d i) st).
    + apply IH in H. rewrite H, !statusLines_write.
      apply (statusLines_sleep (closes d i) st).
Qed.

Lemma statusLines_end (st : State) :
  statusLines (trace (response_end st)) = statusLines (trace st).
Proof.
  unfold response_end, emit. cbn [trace].
  rewrite statusLines_app. apply app_nil_r.
Qed.

Lemma endedLast_end (st : State) : endedLast (response_end st).
Proof.
  split; [reflexivity |]. left.
  unfold response_end, emit. cbn [trace]. apply last_snoc.
Qed.

(** X5.  Whatever the request and whenever the client leaves, each of the
    three handlers writes exactly one status line (200 for a stream, 406
    when the request does not accept one) and ends the response with the
    last thing it does. *)
Theorem one_status_line_then_end (request : Request) (d : option Z) :
  (exists st,
      data_only request d = Some st
      /\ statusLines (trace st) = [200] /\ endedLast st)
  /\ (exists st,
         custom_events request d = Some st
         /\ statusLines (trace st)
            = [if accepts request "text/event-stream" then 200 else 406]
         /\ endedLast st)
  /\ (exists st,
         custom_events_with_id request d = Some st
         /\ statusLines (trace st)
            = [if accepts request "text/event-stream" then 200 else 406]
         /\ endedLast st).
Proof.
  split; [| split].
  - destruct (data_only_body request d) as (st & Hrun & _).
    exists st. split; [exact Hrun |].
    unfold data_only in Hrun.
    destruct (data_only_loop 11 d 0 _) as [[i st'] |] eqn:Hl;
      [| discriminate].
    injection Hrun as <-.
    split; [| apply endedLast_end].
    rewrite statusLines_end, statusLines_write.
    rewrite (data_only_loop_statusLines _ _ _ _ _ _ Hl). reflexivity.
  - destruct (custom_events_detects request d) as (st & Hrun & _).
    exists st. split; [exact Hrun |].
    unfold custom_events in Hrun.
    destruct (accepts request "text/event-stream"); cbn [negb] in Hrun.
    + destruct (custom_events_loop 11 d 0 _) as [[i st'] |] eqn:Hl;
        [| discriminate].
      injection Hrun as <-.
      split; [| apply endedLast_end].
      rewrite statusLines_end.
      destruct (negb (aborted st')); rewrite ?statusLines_write;
        rewrite (custom_events_loop_statusLines _ _ _ _ _ _ Hl); reflexivity.
    + injection Hrun as <-. split; [reflexivity |].
      split; [reflexivity | right; eexists; reflexivity].
  - destruct (custom_events_with_id_detects request d) as (st & Hrun & _).
    exists st. split; [exact Hrun |].
    unfold custom_events_with_id in Hrun.
    destruct (accepts request "text/event-stream"); cbn [negb] in Hrun.
    + cbv zeta in Hrun.
      pose proof (resume_state (header request "Last-Event-Id")
                    (response_writeHead 200 eventStreamHeaders start)) as Hs.
      destruct (resume _ _) as [i0 st0]. cbn [snd] in Hs.
      destruct (custom_events_with_id_loop _ d i0 st0) as [[i st'] |] eqn:Hl;
        [| discriminate].
      injection Hrun as <-.
      split; [| apply endedLast_end].
      rewrite statusLines_end.
      destruct ((i =? 10) && negb (aborted st')); rewrite ?statusLines_write;
        rewrite (custom_events_with_id_loop_statusLines _ _ _ _ _ _ Hl);
        destruct Hs as [-> | ->]; reflexivity.
    + injection Hrun as <-. split; [reflexivity |].
      split; [reflexivity | right; eexists; reflexivity].
Qed.

End SseRunFacts.

(** ** The SSE server's port *)

Module SseAppFacts.
Import Js SseApp.

Lemma idsFrom_covers (z : Z) (n : nat) (k : Z) :
  z <= k < z + Z.of_nat n -> In k (Sse.idsFrom z n).
Proof.
  revert z. induction n as [| n IH]; intros z H; cbn [Sse.idsFrom].
  - lia.
  - destruct (Z.eq_dec z k) as [-> | Hne]; [left; reflexivity |].
    right. apply IH. lia.
Qed.

Lemma decimal_round_trip_check :
  forallb
    (fun n =>
       match parseInt (toString n) with
       | Some m => (m =? n) && truthy (toString n)
       | None => false
       end)
    (Sse.idRange 1 65535)
  = true.
Proof. vm_compute. reflexivity. Qed.

(** [parseInt] reads back the decimal numeral of every port number. *)
Lemma parseInt_toString (n : Z) :
  1 <= n <= 65535 ->
  parseInt (toString n) = Some n /\ truthy (toString n) = true.
Proof.
  intros Hn.
  pose proof (proj1 (forallb_forall _ _) decimal_round_trip_check n) as H.
  assert (Hin : In n (Sse.idRange 1 65535)).
  { unfold Sse.idRange. apply idsFrom_covers.
    rewrite Z2Nat.id by lia. lia. }
  specialize (H Hin). cbv beta in H.
  destruct (parseInt (toString n)) as [m |]; [| discriminate].
  apply andb_prop in H as [Hm Ht].
  apply Z.eqb_eq in Hm. subst m. split; [reflexivity | exact Ht].
Qed.

(** X6.  Without [PORT], or with an empty one, the SSE server listens on
    3000; with the decimal numeral of a port between 1 and 65535 it
    listens on that port.  Whatever [PORT] is, the port it listens on is
    between 1 and 65535 and is what [parseInt] reads from a [PORT] that
    is not empty; a [PORT] from which no number, or one out of range, is
    read stops the server. *)
Theorem listen_port_in_range (env_PORT : option string) :
  (env_PORT = None \/ env_PORT = Some EmptyString ->
   listenPort env_PORT = Some 3000)
  /\ (forall n, 1 <= n <= 65535 -> env_PORT = Some (toString n) ->
                listenPort env_PORT = Some n)
  /\ (forall n, listenPort env_PORT = Some n ->
                1 <= n <= 65535
                /\ forall p, env_PORT = Some p -> truthy p = true ->
                             parseInt p = Some n)
  /\ (forall p, env_PORT = Some p -> truthy p = true ->
                parseInt p = None
                \/ (exists m, parseInt p = Some m /\ (m < 1 \/ 65535 < m)) ->
                listenPort env_PORT = None).
Proof.
  split; [intros [-> | ->]; reflexivity |].
  split.
  { intros n Hn ->. destruct (parseInt_toString n Hn) as [Hp Ht].
    unfold listenPort. rewrite Ht, Hp.
    destruct (Z.ltb_spec n 1); [lia |].
    destruct (Z.ltb_spec 65535 n); [lia | reflexivity]. }
  split.
  { unfold listenPort. intros n H.
    assert (Hp : match env_PORT with
                 | Some p => if truthy p then parseInt p else Some 3000
                 | None => Some 3000
                 end = Some n /\ 1 <= n <= 65535).
    { destruct (match env_PORT with
                | Some p => if truthy p then parseInt p else Some 3000
                | None => Some 3000
                end) as [m |]; [| discriminate].
      destruct (Z.ltb_spec m 1); [discriminate |].
      destruct (Z.ltb_spec 65535 m); [discriminate |].
      injection H as <-. split; [reflexivity | lia]. }
    destruct Hp as [Hp Hr]. split; [exact Hr |].
    intros p -> Ht. rewrite Ht in Hp. exact Hp. }
  intros p -> Ht Hbad. unfold listenPort. rewrite Ht.
  destruct Hbad as [-> | (m & -> & Hm)]; [reflexivity |].
  destruct (Z.ltb_spec m 1); [reflexivity |].
  destruct (Z.ltb_spec 65535 m); [reflexivity | lia].
Qed.

Lemma listen_port_in_range_witness :
  listenPort None = Some 3000
  /\ listenPort (Some "8080") = Some 8080
  /\ listenPort (Some "99999") = None.
Proof.
  split; [apply (proj1 (listen_port_in_range None)); left; reflexivity |].
  split.
  - apply (proj1 (proj2 (listen_port_in_range (Some "8080"))) 8080);
      [lia | reflexivity].
  - apply (proj2 (proj2 (proj2 (listen_port_in_range (Some "99999"))))
             "99999" eq_refl eq_refl).
    right. exists 99999. split; [reflexivity | lia].
Defined.

(** A [PORT] that is no number, or out of range, stops the server. *)
Example listen_port_refused :
  listenPort (Some "http") = None /\ listenPort (Some "0") = None
  /\ listenPort (Some "65536") = None /\ listenPort (Some "-80") = None.
Proof. repeat split. Qed.

End SseAppFacts.

(** ** Bearer tokens *)

Module TokenFacts.
Import Js Http Shapes.

Lemma noSpace_prefix_Bearer (s : string) :
  noSpace s = true -> String.prefix "Bearer " s = false.
Proof.
  unfold noSpace. intros H.
  do 7 (destruct s as [| ? s]; [reflexivity |];
        cbn [String.prefix];
        match goal with
        | |- (if ascii_dec ?a ?b then _ else _) = _ =>
            destruct (ascii_dec a b) as [<- |]; [| reflexivity]
        end).
  cbn in H. discriminate H.
Qed.

Lemma append_empty_r (s : string) : (s ++ EmptyString)%string = s.
Proof.
  induction s as [| c s IH]; [reflexivity |].
  change (String c s ++ EmptyString)%string
    with (String c (s ++ EmptyString)%string).
  rewrite IH. reflexivity.
Qed.

Lemma append_snoc (s t : string) (c : ascii) :
  ((s ++ String c EmptyString) ++ t)%string = (s ++ String c t)%string.
Proof.
  induction s as [| a s IH]; [reflexivity |].
  change ((String a s ++ String c EmptyString) ++ t)%string
    with (String a ((s ++ String c EmptyString) ++ t)%string).
  rewrite IH. reflexivity.
Qed.

(** A piece without white space holds no separator [Bearer ]. *)
Lemma split_go_noSpace (s : string) :
  forall cur,
    noSpace s = true -> split_go "Bearer " 0 cur s = [(cur ++ s)%string].
Proof.
  induction s as [| c s IH]; intros cur H.
  - cbn [split_go]. rewrite append_empty_r. reflexivity.
  - cbn [split_go]. rewrite (noSpace_prefix_Bearer _ H).
    rewrite IH, append_snoc; [reflexivity |].
    unfold noSpace in *.
    change (list_ascii_of_string (String c s))
      with (c :: list_ascii_of_string s) in H.
    cbn [forallb] in H. apply andb_prop in H as [_ H]. exact H.
Qed.

Lemma prefix_append (p s : string) : String.prefix p (p ++ s) = true.
Proof.
  induction p as [| a p IH]; [destruct s; reflexivity |].
  change (String.prefix (String a p) (String a p ++ s))
    with (if ascii_dec a a then String.prefix p (p ++ s) else false).
  destruct (ascii_dec a a); [exact IH | contradiction].
Qed.

Lemma split_Bearer (tok : string) :
  noSpace tok = true ->
  split ("Bearer " ++ tok) "Bearer " = [EmptyString; tok].
Proof.
  intros H. unfold split.
  pose proof (prefix_append "Bearer " tok) as Hp.
  change ("Bearer " ++ tok)%string
    with (String "B" ("earer " ++ tok)%string) in *.
  cbn [split_go]. rewrite Hp.
  change (split_go "Bearer " (String.length "Bearer " - 1) EmptyString
            ("earer " ++ tok))
    with (split_go "Bearer " 0 EmptyString tok).
  rewrite (split_go_noSpace tok EmptyString H). reflexivity.
Qed.

Lemma trimStart_noSpace (s : string) : noSpace s = true -> trimStart s = s.
Proof.
  destruct s as [| c s]; [reflexivity |].
  unfold noSpace.
  change (list_ascii_of_string (String c s))
    with (c :: list_ascii_of_string s).
  cbn [forallb trimStart]. intros H. apply andb_prop in H as [H _].
  destruct (isWhiteSpace c); [discriminate H | reflexivity].
Qed.

Lemma rev_rev (s : string) : Js.rev (Js.rev s) = s.
Proof.
  unfold Js.rev.
  rewrite list_ascii_of_string_of_list_ascii, List.rev_involutive.
  apply string_of_list_ascii_of_string.
Qed.

Lemma noSpace_rev (s : string) : noSpace s = true -> noSpace (Js.rev s) = true.
Proof.
  unfold noSpace, Js.rev. rewrite list_ascii_of_string_of_list_ascii.
  rewrite !forallb_forall. intros H c Hc. apply H, List.in_rev, Hc.
Qed.

Lemma trim_noSpace (s : string) : noSpace s = true -> trim s = s.
Proof.
  intros H. unfold trim, trimEnd.
  rewrite (trimStart_noSpace s H), (trimStart_noSpace _ (noSpace_rev s H)).
  apply rev_rev.
Qed.

Lemma bearerToken_noSpace (tok : string) :
  noSpace tok = true ->
  AuthMiddleware.bearerToken (Some ("Bearer " ++ tok)%string) = Some tok.
Proof.
  intros H. unfold AuthMiddleware.bearerToken, startsWith.
  rewrite (prefix_append "Bearer " tok), (split_Bearer tok H). cbn.
  rewrite (trim_noSpace tok H). reflexivity.
Qed.

Lemma blank_tail (c : ascii) (s : string) :
  blank (String c s) = true -> isWhiteSpace c = true /\ blank s = true.
Proof.
  unfold blank.
  change (list_ascii_of_string (String c s))
    with (c :: list_ascii_of_string s).
  cbn [forallb]. intros H. apply andb_prop in H. exact H.
Qed.

Lemma blank_prefix_Bearer (s : string) :
  blank s = true -> String.prefix "Bearer " s = false.
Proof.
  destruct s as [| c s]; [reflexivity |]. intros H.
  apply blank_tail in H as [H _]. cbn [String.prefix].
  destruct (ascii_dec "B" c) as [<- |]; [discriminate H | reflexivity].
Qed.

Lemma split_go_blank (s : string) :
  forall cur,
    blank s = true -> split_go "Bearer " 0 cur s = [(cur ++ s)%string].
Proof.
  induction s as [| c s IH]; intros cur H.
  - cbn [split_go]. rewrite append_empty_r. reflexivity.
  - cbn [split_go]. rewrite (blank_prefix_Bearer _ H).
    rewrite IH, append_snoc; [reflexivity |].
    apply blank_tail in H as [_ H]. exact H.
Qed.

Lemma trimStart_blank (s : string) :
  blank s = true -> trimStart s = EmptyString.
Proof.
  induction s as [| c s IH]; [reflexivity |]. intros H.
  apply blank_tail in H as [Hc Hs]. cbn [trimStart]. rewrite Hc. auto.
Qed.

Lemma bearerToken_blank (ws : string) :
  blank ws = true ->
  AuthMiddleware.bearerToken (Some ("Bearer " ++ ws)%string)
  = Some EmptyString.
Proof.
  intros H. unfold AuthMiddleware.bearerToken, startsWith, split.
  rewrite (prefix_append "Bearer " ws).
  pose proof (prefix_append "Bearer " ws) as Hp.
  change ("Bearer " ++ ws)%string
    with (String "B" ("earer " ++ ws)%string) in *.
  cbn [split_go]. rewrite Hp.
  change (split_go "Bearer " (String.length "Bearer " - 1) EmptyString
            ("earer " ++ ws))
    with (split_go "Bearer " 0 EmptyString ws).
  rewrite (split_go_blank ws EmptyString H).
  change (trim <$> [EmptyString; (EmptyString ++ ws)%string] !! 1%nat)
    with (Some (trim ws)).
  unfold trim, trimEnd. rewrite (trimStart_blank ws H). reflexivity.
Qed.

Section Tokens.
Variable validateToken : string -> list string -> option Json.t.
Variable env : ScalekitConfig.Env.

(** X7.  For [Authorization: Bearer <token>] with a token that is not
    empty and holds no white space, the middleware validates exactly
    [<token>] for the resource id: when the validator accepts it the
    request goes on with that token, its claims and [isAuthenticated], and
    otherwise the answer is the 401 challenge. *)
Theorem bearer_token_reaches_validator (req : Request) (tok : string) :
  headers req "authorization" = Some ("Bearer " ++ tok)%string ->
  truthy tok = true ->
  noSpace tok = true ->
  AuthMiddleware.requiredAuthMiddleware validateToken env req
  = match validateToken tok [ScalekitConfig.resourceId env] with
    | Some claims =>
        AuthMiddleware.Next
          (mkRequest (method req) (headers req) (body req)
             (Some tok) (Some claims) (Some true))
    | None => AuthMiddleware.unauthorized env
    end.
Proof.
  intros Hh Ht Hs. unfold AuthMiddleware.requiredAuthMiddleware.
  rewrite Hh, (bearerToken_noSpace tok Hs), Ht. reflexivity.
Qed.

(** X8.  A bearer token that is empty or all white space is never
    accepted: [Authorization: Bearer] followed by blanks only is answered
    with the 401 challenge whatever the validator would say. *)
Theorem blank_bearer_token_rejected (req : Request) (ws : string) :
  headers req "authorization" = Some ("Bearer " ++ ws)%string ->
  blank ws = true ->
  AuthMiddleware.requiredAuthMiddleware validateToken env req
  = AuthMiddleware.Respond
      (mkResponse 401 [ScalekitConfig.WWW_AUTHENTICATE_HEADER env] NoBody).
Proof.
  intros Hh Hb. unfold AuthMiddleware.requiredAuthMiddleware.
  rewrite Hh, (bearerToken_blank ws Hb). reflexivity.
Qed.

End Tokens.

Lemma bearer_token_reaches_validator_witness :
  AuthMiddleware.requiredAuthMiddleware Scenario.acceptsGoodToken
    Scenario.devEnv
    (Scenario.rpc POST None (Some "Bearer good-token") "tools/list")
  = AuthMiddleware.Next
      (mkRequest POST
         (headers
            (Scenario.rpc POST None (Some "Bearer good-token") "tools/list"))
         (body
            (Scenario.rpc POST None (Some "Bearer good-token") "tools/list"))
         (Some "good-token")
         (Some (Json.Obj [("sub", Json.Str "alice")]))
         (Some true)).
Proof.
  exact (bearer_token_reaches_validator Scenario.acceptsGoodToken
           Scenario.devEnv
           (Scenario.rpc POST None (Some "Bearer good-token") "tools/list")
           "good-token" eq_refl eq_refl eq_refl).
Defined.

Lemma blank_bearer_token_rejected_witness :
  AuthMiddleware.requiredAuthMiddleware
    (fun _ _ => Some (Json.Obj [("sub", Json.Str "anyone")]))
    Scenario.devEnv
    (Scenario.rpc POST None (Some "Bearer   ") "tools/list")
  = AuthMiddleware.Respond
      (mkResponse 401
         [ScalekitConfig.WWW_AUTHENTICATE_HEADER Scenario.devEnv] NoBody).
Proof.
  exact (blank_bearer_token_rejected
           (fun _ _ => Some (Json.Obj [("sub", Json.Str "anyone")]))
           Scenario.devEnv
           (Scenario.rpc POST None (Some "Bearer   ") "tools/list")
           "  " eq_refl eq_refl).
Defined.

End TokenFacts.

(** ** More on the [/mcp] routers *)

Module RouterRunFacts.
Import Js Http Registry RegistryFacts Scenario RouterViews.

Lemma get_Own (transports : Registry.t) (sid : string) (tr : Transport) :
  get transports sid = Some (Own tr) -> transports !! sid = Some tr.
Proof.
  unfold get. destruct (transports !! sid) as [tr' |].
  - intros [= ->]. reflexivity.
  - destruct (bool_decide _); discriminate.
Qed.

Lemma chosen_none (transports : Registry.t) (h : option string)
  (mayCreate : bool) (o : Outcome.t) :
  Outcome.delivered o = [] -> chosen transports h mayCreate o.
Proof.
  intros H. unfold chosen. rewrite H. split; [simpl; lia |].
  intros dl Hdl. apply elem_of_nil in Hdl. contradiction.
Qed.

Lemma chosen_registered (transports : Registry.t) (sid : string)
  (mayCreate : bool) (o : Outcome.t) (tr : Transport) (ctx : _) :
  truthy sid = true -> transports !! sid = Some tr ->
  Outcome.delivered o = [Outcome.mkDelivery tr ctx] ->
  chosen transports (Some sid) mayCreate o.
Proof.
  intros Ht Htr H. unfold chosen. rewrite H. split; [simpl; lia |].
  intros dl Hdl. apply list_elem_of_singleton in Hdl as ->.
  left. exists sid. auto.
Qed.

Lemma chosen_new (transports : Registry.t) (h : option string)
  (o : Outcome.t) (ctx : _) :
  h = None \/ h = Some EmptyString ->
  Outcome.delivered o = [Outcome.mkDelivery (mkTransport None) ctx] ->
  chosen transports h true o.
Proof.
  intros Hh H. unfold chosen. rewrite H. split; [simpl; lia |].
  intros dl Hdl. apply list_elem_of_singleton in Hdl as ->.
  right. auto.
Qed.

Section Routers.
Variable isInitializeRequest : option Json.t -> bool.
Variable validateToken : string -> list string -> option Json.t.
Variable env : ScalekitConfig.Env.
Variable sdk : Transport -> Request -> SdkRun.

(** X9.  The routers call at most one transport per request, and only
    the transport the registry holds under the session id of the request;
    the two POST handlers may instead call a new transport, and only for a
    request without a session id whose body is an initialize request.  A
    request that names a session never gets a transport of its own. *)
Theorem routers_call_the_registered_transport (transports : Registry.t)
  (req : Request) :
  chosen transports (headers req "mcp-session-id")
    (isInitializeRequest (body req))
    (DemoServer.mcpPostHandler isInitializeRequest sdk transports req)
  /\ chosen transports (headers req "mcp-session-id")
       (AuthServer.asksInitialize req)
       (AuthServer.post sdk transports req)
  /\ chosen transports (headers req "mcp-session-id") false
       (DemoServer.mcpGetHandler sdk transports req)
  /\ chosen transports (headers req "mcp-session-id") false
       (AuthServer.handleSessionRequest sdk transports req).
Proof.
  unfold DemoServer.mcpPostHandler, AuthServer.post,
    DemoServer.mcpGetHandler, AuthServer.handleSessionRequest,
    DemoServer.sessionIdOf, AuthServer.sessionIdOf,
    AuthContext.runWithAuthContext.
  destruct (headers req "mcp-session-id") as [sid |];
    [destruct (truthy sid) eqn:Ht |]; cbn [mbind option_bind].
  - destruct (get transports sid) as [[tr | name] |] eqn:Hg;
      [apply get_Own in Hg | |];
      (split; [| split; [| split]]);
      solve [ eapply chosen_registered; [exact Ht | exact Hg | reflexivity]
            | apply chosen_none; reflexivity ].
  - destruct sid; [| discriminate Ht].
    cbn [negb andb bool_decide decide_rel].
    (split; [| split; [| split]]);
      try (apply chosen_none; reflexivity).
    + destruct (isInitializeRequest (body req)) eqn:Hc;
        [| apply chosen_none; reflexivity].
      eapply chosen_new; [right; reflexivity |].
      rewrite (bool_decide_eq_false_2 (is_Some None)) by (intros [? ?]; discriminate).
      reflexivity.
    + destruct (AuthServer.asksInitialize req) eqn:Hc;
        rewrite (bool_decide_eq_false_2 (is_Some None))
          by (intros [? ?]; discriminate); cbn [negb andb];
        [| apply chosen_none; reflexivity].
      eapply chosen_new; [right; reflexivity | reflexivity].
  - (split; [| split; [| split]]);
      try (apply chosen_none; reflexivity).
    + destruct (isInitializeRequest (body req)) eqn:Hc;
        rewrite (bool_decide_eq_false_2 (is_Some None))
          by (intros [? ?]; discriminate); cbn [negb andb];
        [| apply chosen_none; reflexivity].
      eapply chosen_new; [left; reflexivity | reflexivity].
    + destruct (AuthServer.asksInitialize req) eqn:Hc;
        rewrite (bool_decide_eq_false_2 (is_Some None))
          by (intros [? ?]; discriminate); cbn [negb andb];
        [| apply chosen_none; reflexivity].
      eapply chosen_new; [left; reflexivity | reflexivity].
Qed.

(** X10.  [mcpPostHandler] contains every failure: no exception leaves
    it, and when it answers itself the answer is a JSON-RPC error with a
    null id, either 400 with code -32000 and no transport called, or 500
    with code -32603. *)
Theorem demo_post_answers_with_rpc_errors (transports : Registry.t)
  (req : Request) :
  let o := DemoServer.mcpPostHandler isInitializeRequest sdk transports req in
  Outcome.uncaught o = false
  /\ forall res, Outcome.response o = Some res ->
       resHeaders res = []
       /\ ((status res = 400 /\ rpcError (-32000) res
            /\ Outcome.delivered o = []
            /\ Outcome.transports o = transports)
           \/ (status res = 500 /\ rpcError (-32603) res)).
Proof.
  unfold DemoServer.mcpPostHandler, DemoServer.handleRequest,
    DemoServer.notATransport.
  destruct (DemoServer.sessionIdOf req ≫= get transports)
    as [[tr | name] |]; cbn [Outcome.uncaught Outcome.response].
  - split; [reflexivity |]. intros res.
    destruct (threw (sdk tr req) && negb (headersSent (sdk tr req)));
      [| discriminate].
    intros [= <-]. split; [reflexivity |]. right.
    split; [reflexivity | eexists; reflexivity].
  - split; [reflexivity |]. intros res [= <-]. split; [reflexivity |].
    right. split; [reflexivity | eexists; reflexivity].
  - destruct (_ && _); cbn [Outcome.uncaught Outcome.response].
    + split; [reflexivity |]. intros res.
      destruct (threw _ && negb _); [| discriminate].
      intros [= <-]. split; [reflexivity |]. right.
      split; [reflexivity | eexists; reflexivity].
    + split; [reflexivity |]. intros res [= <-]. split; [reflexivity |].
      left. repeat split. eexists; reflexivity.
Qed.

(** X11.  GET on both servers and DELETE on the auth server need a known
    session: without a session id, or with one that is not registered,
    the answer is 400 with the plain text [Invalid or missing session ID];
    the registry is left as it is and no transport is called. *)
Theorem get_needs_a_known_session (transports : Registry.t)
  (req : Request) :
  unknownSession transports req ->
  DemoServer.mcpGetHandler sdk transports req
  = Outcome.mk transports
      (Some (mkResponse 400 [] (Text "Invalid or missing session ID")))
      [] false
  /\ AuthServer.handleSessionRequest sdk transports req
     = Outcome.mk transports
         (Some (mkResponse 400 [] (Text "Invalid or missing session ID")))
         [] false.
Proof.
  unfold unknownSession, DemoServer.mcpGetHandler,
    AuthServer.handleSessionRequest, DemoServer.sessionIdOf,
    AuthServer.sessionIdOf.
  destruct (headers req "mcp-session-id") as [sid |];
    [| intros _; split; reflexivity].
  intros [Hl Hp]. destruct (truthy sid); cbn [mbind option_bind];
    [| split; reflexivity].
  rewrite (get_unknown transports sid Hl Hp). split; reflexivity.
Qed.

(** X12.  The life of a session on the auth server.  An initialize
    request without a session id, on which the SDK starts the session
    [sid], registers the transport under [sid], and [/health] then counts
    one active session more; a later POST under [sid] goes to that
    transport, in an auth context that carries [sid], and changes
    nothing in the registry; a DELETE on which the transport
    closes removes the entry again, so that the registry is what it was
    before the session and the same POST is now turned away with 400. *)
Theorem session_lifecycle (transports : Registry.t) (sid : string)
  (init call del : Request) :
  transports !! sid = None ->
  truthy sid = true ->
  sid ∉ objectPrototypeKeys ->
  headers init "mcp-session-id" = None ->
  AuthServer.asksInitialize init = true ->
  initialized (sdk (mkTransport None) init) = Some sid ->
  closed (sdk (mkTransport None) init) = false ->
  headers call "mcp-session-id" = Some sid ->
  initialized (sdk (mkTransport (Some sid)) call) = None ->
  closed (sdk (mkTransport (Some sid)) call) = false ->
  headers del "mcp-session-id" = Some sid ->
  initialized (sdk (mkTransport (Some sid)) del) = None ->
  closed (sdk (mkTransport (Some sid)) del) = true ->
  let o1 := AuthServer.post sdk transports init in
  let o2 := AuthServer.post sdk (Outcome.transports o1) call in
  let o3 := AuthServer.handleSessionRequest sdk (Outcome.transports o2) del in
  Outcome.transports o1 = <[sid := mkTransport (Some sid)]> transports
  /\ (forall serverName serverVersion timestamp config,
        Json.member "activeSessions"
          (AuthServerPublic.health serverName serverVersion timestamp
             config (Outcome.transports o1))
        = Some (Json.Num (Z.of_nat (size transports) + 1)))
  /\ Outcome.delivered o2
     = [Outcome.mkDelivery (mkTransport (Some sid))
          (Some (AuthServer.authContextOf call (Some sid)))]
  /\ Outcome.transports o2 = Outcome.transports o1
  /\ Outcome.transports o3 = transports
  /\ AuthServer.post sdk (Outcome.transports o3) call
     = Outcome.mk transports (Some AuthServer.noValidSessionId) [] false.
Proof.
  intros Hfresh Ht Hp Hi Hask Hi1 Hi2 Hc Hc1 Hc2 Hd Hd1 Hd2 o1 o2 o3.
  assert (H1 : Outcome.transports o1
               = <[sid := mkTransport (Some sid)]> transports).
  { subst o1. unfold AuthServer.post, AuthServer.sessionIdOf.
    rewrite Hi, Hask. cbn [mbind option_bind].
    rewrite (bool_decide_eq_false_2 (is_Some None))
      by (intros [? ?]; discriminate).
    cbn [negb andb]. unfold AuthContext.runWithAuthContext,
      AuthServer.handleRequest. cbn [Outcome.transports].
    rewrite Hi1, Hi2. reflexivity. }
  assert (Hlive : Outcome.transports o1 !! sid = Some (mkTransport (Some sid)))
    by (rewrite H1; apply lookup_insert_eq).
  assert (H2 : Outcome.delivered o2
               = [Outcome.mkDelivery (mkTransport (Some sid))
                    (Some (AuthServer.authContextOf call (Some sid)))]
               /\ Outcome.transports o2 = Outcome.transports o1).
  { subst o2. unfold AuthServer.post, AuthServer.sessionIdOf.
    rewrite Hc, Ht. cbn [mbind option_bind].
    rewrite (get_own _ sid _ Hlive).
    unfold AuthContext.runWithAuthContext, AuthServer.handleRequest.
    cbn [Outcome.transports Outcome.delivered]. rewrite Hc1, Hc2.
    split; reflexivity. }
  destruct H2 as [H2 H2'].
  assert (H3 : Outcome.transports o3 = transports).
  { subst o3. rewrite H2'. unfold AuthServer.handleSessionRequest,
      AuthServer.sessionIdOf.
    rewrite Hd, Ht. cbn [mbind option_bind].
    rewrite (get_own _ sid _ Hlive).
    unfold AuthContext.runWithAuthContext, AuthServer.handleRequest.
    cbn [Outcome.transports]. rewrite Hd1, Hd2.
    unfold AuthServer.onclose. cbn [sessionId]. rewrite Ht, H1.
    unfold remove. rewrite delete_insert_eq. apply delete_id, Hfresh. }
  split; [exact H1 |].
  split.
  { intros serverName serverVersion timestamp config.
    unfold AuthServerPublic.health. cbn [Json.member Json.assoc String.eqb
      Ascii.eqb Bool.eqb].
    rewrite H1, (map_size_insert_None _ _ _ Hfresh). do 2 f_equal. lia. }
  split; [exact H2 |]. split; [exact H2' |]. split; [exact H3 |].
  rewrite H3. unfold AuthServer.post, AuthServer.sessionIdOf.
  rewrite Hc, Ht. cbn [mbind option_bind].
  rewrite (get_unknown transports sid); [reflexivity | | exact Hp].
  intros [tr Htr]. congruence.
Qed.

(** X13.  Behind the auth gate the [get_token_claims] tool never answers
    [Not authenticated]: in the auth context of every call of a transport
    that a request to [/mcp] leads to, it reports [isAuthenticated] and
    the claims the token service returned for the bearer token of that
    request. *)
Theorem tool_reports_validated_claims
  (stringify : option Json.t -> string) (transports : Registry.t)
  (req : Request) (dl : Outcome.Delivery) :
  dl ∈ Outcome.delivered
         (AuthServer.app validateToken env sdk transports req) ->
  exists tok claims,
    AuthMiddleware.bearerToken (headers req "authorization") = Some tok
    /\ validateToken tok [ScalekitConfig.resourceId env] = Some claims
    /\ Tools.get_token_claims stringify (Outcome.context dl)
       = Tools.mkToolResult
           ("Token Claims:" ++ nl ++ stringify (Some claims))%string
           (Tools.mkStructured (Some claims) true).
Proof.
  unfold AuthServer.app.
  pose proof (RouterFacts.requiredAuthMiddleware_cases validateToken env req)
    as Hm.
  destruct (AuthMiddleware.requiredAuthMiddleware validateToken env req)
    as [req' | res]; cbn [Outcome.delivered].
  - destruct Hm as (tok & claims & (Hb & _ & Hv) & ->).
    intros Hdl. exists tok, claims. split; [exact Hb |].
    split; [exact Hv |].
    cbn [method] in Hdl.
    rewrite (RouterFacts.deliveries_in_context sdk transports
               (mkRequest (method req) (headers req) (body req)
                  (Some tok) (Some claims) (Some true)) dl).
    + reflexivity.
    + destruct (method req); auto.
  - intros H. apply elem_of_nil in H. contradiction.
Qed.

(** X14.  Both servers keep their registry well formed: when every
    transport is stored under its own session id before a request to
    [/mcp], the same holds after it, whatever the SDK does with the
    request. *)
Theorem registry_stays_well_formed (transports : Registry.t)
  (req : Request) :
  wf transports ->
  wf (Outcome.transports
        (DemoServer.app isInitializeRequest sdk transports req))
  /\ wf (Outcome.transports
           (AuthServer.app validateToken env sdk transports req)).
Proof.
  intros H. split; [| apply RouterFacts.app_preserves_wf, H].
  assert (Hh : forall tr, wf (Outcome.transports
                                (DemoServer.handleRequest sdk tr req
                                   transports))).
  { intros tr. unfold DemoServer.handleRequest.
    cbn [Outcome.transports]. unfold DemoServer.onclose.
    destruct (initialized (sdk tr req)) as [sid0 |];
      destruct (closed (sdk tr req)); cbn [sessionId];
      try destruct (sessionId tr) as [sid1 |];
      try destruct (truthy _ && _);
      auto using RouterFacts.wf_set, RouterFacts.wf_remove. }
  unfold DemoServer.app, DemoServer.mcpPostHandler, DemoServer.mcpGetHandler,
    DemoServer.mcpMethodNotAllowedHandler, DemoServer.notATransport.
  destruct (method req); cbn [Outcome.transports];
    destruct (DemoServer.sessionIdOf req ≫= get transports)
      as [[tr | name] |]; cbn [Outcome.transports];
    try destruct (_ && _); cbn [Outcome.transports]; auto.
Qed.

End Routers.

(** X15.  The two servers clean up alike: the check [transports[sid]]
    that the demo server makes before [delete] changes nothing, so its
    [onclose] leaves the registry exactly as the one of the auth server
    does. *)
Theorem onclose_guard_is_redundant (tr : Transport)
  (transports : Registry.t) :
  DemoServer.onclose tr transports = AuthServer.onclose tr transports.
Proof.
  unfold DemoServer.onclose, AuthServer.onclose.
  destruct (sessionId tr) as [sid |]; [| reflexivity].
  destruct (truthy sid); [| reflexivity]. cbn [andb].
  unfold get. destruct (transports !! sid) as [tr0 |] eqn:Hl.
  - rewrite bool_decide_eq_true_2 by eauto. reflexivity.
  - unfold remove. rewrite (delete_id _ _ Hl).
    destruct (bool_decide (is_Some _)); reflexivity.
Qed.

Lemma tool_reports_validated_claims_witness :
  exists tok claims,
    AuthMiddleware.bearerToken (Some "Bearer good-token") = Some tok
    /\ acceptsGoodToken tok [ScalekitConfig.resourceId devEnv] = Some claims
    /\ Tools.get_token_claims Samples.sampleStringify
         (Some (AuthServer.authContextOf
                  (mkRequest POST
                     (headers (rpc POST (Some sampleSession)
                                 (Some "Bearer good-token") "tools/list"))
                     (body (rpc POST (Some sampleSession)
                              (Some "Bearer good-token") "tools/list"))
                     (Some "good-token")
                     (Some (Json.Obj [("sub", Json.Str "alice")]))
                     (Some true))
                  (Some sampleSession)))
       = Tools.mkToolResult
           ("Token Claims:" ++ nl ++ Samples.sampleStringify (Some claims))%string
           (Tools.mkStructured (Some claims) true).
Proof.
  apply (tool_reports_validated_claims acceptsGoodToken devEnv closesOnDelete
           Samples.sampleStringify oneSession
           (rpc POST (Some sampleSession) (Some "Bearer good-token")
              "tools/list")
           (Outcome.mkDelivery sampleTransport
              (Some (AuthServer.authContextOf
                       (mkRequest POST
                          (headers (rpc POST (Some sampleSession)
                                      (Some "Bearer good-token")
                                      "tools/list"))
                          (body (rpc POST (Some sampleSession)
                                   (Some "Bearer good-token") "tools/list"))
                          (Some "good-token")
                          (Some (Json.Obj [("sub", Json.Str "alice")]))
                          (Some true))
                       (Some sampleSession))))).
  apply list_elem_of_singleton. reflexivity.
Defined.

Lemma registry_stays_well_formed_witness :
  wf (Outcome.transports
        (DemoServer.app initializeByMethod Samples.sampleSdk oneSession
           (rpc POST None (Some "Bearer good-token") "initialize")))
  /\ wf (Outcome.transports
           (AuthServer.app acceptsGoodToken devEnv Samples.sampleSdk
              oneSession
              (rpc POST None (Some "Bearer good-token") "initialize"))).
Proof.
  apply (registry_stays_well_formed initializeByMethod acceptsGoodToken
           devEnv Samples.sampleSdk oneSession).
  apply RouterFacts.oneSession_wf.
Defined.

Lemma demo_post_answers_with_rpc_errors_witness :
  let o := DemoServer.mcpPostHandler initializeByMethod closesOnDelete
             oneSession (rpc POST None None "tools/list") in
  Outcome.response o
  = Some (mkResponse 400 []
            (JsonBody
               (DemoServer.getJsonRpcError
                  DemoServer.NO_VALID_SESSION_ID_ERROR)))
  /\ resHeaders (mkResponse 400 []
                   (JsonBody
                      (DemoServer.getJsonRpcError
                         DemoServer.NO_VALID_SESSION_ID_ERROR))) = []
  /\ ((status (mkResponse 400 []
                  (JsonBody
                     (DemoServer.getJsonRpcError
                        DemoServer.NO_VALID_SESSION_ID_ERROR))) = 400
       /\ rpcError (-32000)
            (mkResponse 400 []
               (JsonBody
                  (DemoServer.getJsonRpcError
                     DemoServer.NO_VALID_SESSION_ID_ERROR)))
       /\ Outcome.delivered o = []
       /\ Outcome.transports o = oneSession)
      \/ (status (mkResponse 400 []
                    (JsonBody
                       (DemoServer.getJsonRpcError
                          DemoServer.NO_VALID_SESSION_ID_ERROR))) = 500
          /\ rpcError (-32603)
               (mkResponse 400 []
                  (JsonBody
                     (DemoServer.getJsonRpcError
                        DemoServer.NO_VALID_SESSION_ID_ERROR))))).
Proof.
  intros o. split; [reflexivity |].
  apply (proj2 (demo_post_answers_with_rpc_errors initializeByMethod
                  closesOnDelete oneSession
                  (rpc POST None None "tools/list"))).
  reflexivity.
Defined.

Lemma get_needs_a_known_session_witness :
  DemoServer.mcpGetHandler closesOnDelete oneSession
    (rpc GET (Some "no-such-session") None "listen")
  = Outcome.mk oneSession
      (Some (mkResponse 400 [] (Text "Invalid or missing session ID")))
      [] false
  /\ AuthServer.handleSessionRequest closesOnDelete oneSession
       (rpc GET (Some "no-such-session") None "listen")
     = Outcome.mk oneSession
         (Some (mkResponse 400 [] (Text "Invalid or missing session ID")))
         [] false.
Proof.
  apply (get_needs_a_known_session closesOnDelete oneSession
           (rpc GET (Some "no-such-session") None "listen")).
  split.
  - intros [tr Htr]. unfold oneSession in Htr.
    rewrite lookup_singleton_ne in Htr; discriminate.
  - unfold objectPrototypeKeys. intros H.
    repeat (apply elem_of_cons in H as [H | H]; [discriminate H |]).
    apply elem_of_nil in H. contradiction.
Defined.

Lemma session_lifecycle_witness :
  let init := rpc POST None (Some "Bearer good-token") "initialize" in
  let call := rpc POST (Some sampleSession) (Some "Bearer good-token")
                "tools/list" in
  let del := rpc DELETE (Some sampleSession) (Some "Bearer good-token")
               "terminate" in
  let o1 := AuthServer.post Samples.sampleSdk ∅ init in
  let o2 := AuthServer.post Samples.sampleSdk (Outcome.transports o1) call in
  let o3 := AuthServer.handleSessionRequest Samples.sampleSdk
              (Outcome.transports o2) del in
  Outcome.transports o1 = oneSession
  /\ (forall serverName serverVersion timestamp config,
        Json.member "activeSessions"
          (AuthServerPublic.health serverName serverVersion timestamp
             config (Outcome.transports o1))
        = Some (Json.Num (Z.of_nat (size (∅ : Registry.t)) + 1)))
  /\ Outcome.delivered o2
     = [Outcome.mkDelivery sampleTransport
          (Some (AuthServer.authContextOf call (Some sampleSession)))]
  /\ Outcome.transports o2 = Outcome.transports o1
  /\ Outcome.transports o3 = ∅
  /\ AuthServer.post Samples.sampleSdk (Outcome.transports o3) call
     = Outcome.mk ∅ (Some AuthServer.noValidSessionId) [] false.
Proof.
  intros init call del.
  exact (session_lifecycle Samples.sampleSdk ∅ sampleSession init call del
           (lookup_empty sampleSession) eq_refl
           RouterFacts.sampleSession_not_inherited
           eq_refl eq_refl eq_refl eq_refl eq_refl eq_refl eq_refl
           eq_refl eq_refl eq_refl).
Defined.

End RouterRunFacts.

(** ** The configuration of the auth server *)

Module ConfigFacts.
Import Js ScalekitEnv.
Local Open Scope list_scope.

Lemma truthy_nonempty (s : string) : truthy s = true <-> s <> EmptyString.
Proof.
  destruct s; cbn [truthy]; split; intros H; try reflexivity;
    try discriminate; congruence.
Qed.

Lemma isSet_spec (penv : string -> option string) (v : string) :
  isSet penv v = true <-> exists s, penv v = Some s /\ s <> EmptyString.
Proof.
  unfold isSet. destruct (penv v) as [s |].
  - rewrite truthy_nonempty. split.
    + intros H. exists s. split; [reflexivity | exact H].
    + intros (s' & [= <-] & H). exact H.
  - split; [discriminate | intros (s & H & _); discriminate].
Qed.

Lemma filter_nil {A : Type} (f : A -> bool) (l : list A) :
  List.filter f l = [] <-> forall x, x ∈ l -> f x = false.
Proof.
  induction l as [| a l IH]; cbn [List.filter].
  - split; [intros _ x H; apply elem_of_nil in H; contradiction
           | reflexivity].
  - destruct (f a) eqn:Ha.
    + split; [discriminate |]. intros H.
      rewrite (H a) in Ha by apply list_elem_of_here. discriminate.
    + rewrite IH. split.
      * intros H x Hx. apply elem_of_cons in Hx as [-> | Hx]; auto.
      * intros H x Hx. apply H, list_elem_of_further, Hx.
Qed.

Lemma load_ok (penv : string -> option string) :
  (exists config, load penv = inr config) <-> missingEnvVars penv = [].
Proof.
  unfold load. destruct (missingEnvVars penv) as [| v l];
    cbn [length Nat.ltb Nat.leb].
  - split; [reflexivity | eauto].
  - split; [intros [config H]; discriminate | discriminate].
Qed.

Lemma split_go_nonempty (sep : string) (s cur : string) (skip : nat) :
  split_go sep skip cur s <> [].
Proof.
  revert cur skip. induction s as [| c s IH]; intros cur skip;
    cbn [split_go]; [discriminate |].
  destruct skip; [| apply IH].
  destruct (String.prefix sep (String c s)); [discriminate | apply IH].
Qed.

Lemma resourceId_nonempty (env : ScalekitConfig.Env) :
  ScalekitConfig.MCP_RESOURCE_ID env <> EmptyString ->
  ScalekitConfig.resourceId env <> EmptyString.
Proof.
  intros H. unfold ScalekitConfig.resourceId, ScalekitConfig.devResourceId.
  destruct (ScalekitConfig.NODE_ENV env) as [mode |];
    [destruct (String.eqb mode "production") |];
    try exact H; discriminate.
Qed.

Lemma append_assoc (a b c : string) :
  ((a ++ b) ++ c = a ++ (b ++ c))%string.
Proof.
  induction a as [| x a IH]; [reflexivity |].
  change (String x ((a ++ b) ++ c) = String x (a ++ (b ++ c)))%string.
  f_equal. exact IH.
Qed.

(** X16.  The configuration loads exactly when each of the six required
    environment variables is set to a non-empty string.  What is loaded
    then has the value of [MCP_RESOURCE_ID] as its audience, a resource
    id that is not empty and at least one supported scope. *)
Theorem load_needs_every_required_variable
  (penv : string -> option string) :
  ((exists config, load penv = inr config)
   <-> forall v, v ∈ requiredEnvVars ->
         exists s, penv v = Some s /\ s <> EmptyString)
  /\ forall config, load penv = inr config ->
       penv "MCP_RESOURCE_ID" = Some (audience config)
       /\ audience config <> EmptyString
       /\ resourceId config <> EmptyString
       /\ supportedScopes config <> [].
Proof.
  assert (Hiff : (exists config, load penv = inr config)
                 <-> forall v, v ∈ requiredEnvVars ->
                       exists s, penv v = Some s /\ s <> EmptyString).
  { rewrite load_ok. unfold missingEnvVars. rewrite filter_nil.
    split; intros H v Hv.
    - apply isSet_spec. specialize (H v Hv).
      destruct (isSet penv v); [reflexivity | discriminate].
    - apply H, isSet_spec in Hv. rewrite Hv. reflexivity. }
  split; [exact Hiff |].
  intros config Hload.
  assert (Hset : exists s, penv "MCP_RESOURCE_ID" = Some s
                           /\ s <> EmptyString).
  { apply (proj1 Hiff (ex_intro _ config Hload)).
    unfold requiredEnvVars. do 4 apply list_elem_of_further.
    apply list_elem_of_here. }
  destruct Hset as (s & Hs & Hne).
  unfold load in Hload.
  destruct (0 <? length (missingEnvVars penv))%nat; [discriminate |].
  injection Hload as <-.
  cbn [audience resourceId supportedScopes]. rewrite Hs. cbn [default].
  split; [reflexivity |]. split; [exact Hne |]. split.
  - apply resourceId_nonempty. unfold envOf.
    cbn [ScalekitConfig.MCP_RESOURCE_ID]. rewrite Hs. exact Hne.
  - apply split_go_nonempty.
Qed.

Lemma load_needs_every_required_variable_witness :
  load Samples.sampleProcessEnv = inr Samples.sampleConfig
  /\ Samples.sampleProcessEnv "MCP_RESOURCE_ID"
     = Some (audience Samples.sampleConfig)
  /\ audience Samples.sampleConfig <> EmptyString
  /\ resourceId Samples.sampleConfig <> EmptyString
  /\ supportedScopes Samples.sampleConfig <> [].
Proof.
  split; [reflexivity |].
  apply (proj2 (load_needs_every_required_variable Samples.sampleProcessEnv)
           Samples.sampleConfig).
  reflexivity.
Defined.

(** X17.  Outside production the 401 challenge leads back to the server
    itself: the metadata URL it names is on [localhost], on the port the
    server started with the default 3000 listens on, at one of the two
    paths the metadata document is served under. *)
Theorem dev_challenge_names_a_served_route (env : ScalekitConfig.Env) :
  ScalekitConfig.NODE_ENV env <> Some "production" ->
  exists route,
    route ∈ AuthServerPublic.metadataRoutes
    /\ ScalekitConfig.resourceMetadataUrl env
       = ("http://localhost:"
          ++ AuthServerPublic.listenPORT (ScalekitConfig.PORT env) 3000
          ++ route)%string
    /\ Scenario.mentions (snd (ScalekitConfig.WWW_AUTHENTICATE_HEADER env))
         (ScalekitConfig.resourceMetadataUrl env).
Proof.
  intros Hdev. exists "/mcp/.well-known/oauth-protected-resource".
  split; [unfold AuthServerPublic.metadataRoutes;
          apply list_elem_of_further, list_elem_of_here |].
  split.
  - unfold ScalekitConfig.resourceMetadataUrl, ScalekitConfig.resourceId.
    assert (Hd : (ScalekitConfig.devResourceId env
                  ++ "/.well-known/oauth-protected-resource"
                  = "http://localhost:"
                    ++ AuthServerPublic.listenPORT (ScalekitConfig.PORT env)
                         3000
                    ++ "/mcp/.well-known/oauth-protected-resource")%string).
    { unfold ScalekitConfig.devResourceId, AuthServerPublic.listenPORT.
      change (toString 3000) with "3000".
      rewrite !append_assoc. reflexivity. }
    destruct (ScalekitConfig.NODE_ENV env) as [mode |]; [| exact Hd].
    destruct (String.eqb mode "production") eqn:Hm; [| exact Hd].
    apply String.eqb_eq in Hm. subst mode. contradiction.
  - unfold ScalekitConfig.WWW_AUTHENTICATE_HEADER. cbn [snd].
    exists (append "Bearer realm="
              (append dq (append "OAuth"
                 (append dq (append ", resource_metadata=" dq))))).
    exists dq. rewrite !append_assoc. reflexivity.
Qed.

Lemma dev_challenge_names_a_served_route_witness :
  exists route,
    route ∈ AuthServerPublic.metadataRoutes
    /\ ScalekitConfig.resourceMetadataUrl Scenario.devEnv
       = ("http://localhost:"
          ++ AuthServerPublic.listenPORT
               (ScalekitConfig.PORT Scenario.devEnv) 3000
          ++ route)%string
    /\ Scenario.mentions
         (snd (ScalekitConfig.WWW_AUTHENTICATE_HEADER Scenario.devEnv))
         (ScalekitConfig.resourceMetadataUrl Scenario.devEnv).
Proof.
  apply (dev_challenge_names_a_served_route Scenario.devEnv).
  discriminate.
Defined.

(** X18.  Tokens are validated for the resource the metadata document
    advertises and for no other audience: the [resource] member of the
    document is the resource id of the loaded configuration, and two
    token services that agree on that one audience make the middleware
    answer every request alike. *)
Theorem tokens_validated_for_advertised_resource
  (penv : string -> option string) (config : Config)
  (validateToken validateToken' : string -> list string -> option Json.t)
  (req : Http.Request) :
  load penv = inr config ->
  (forall tok, validateToken tok [resourceId config]
               = validateToken' tok [resourceId config]) ->
  Json.member "resource" (AuthServerPublic.handleOAuthProtectedResource config)
  = Some (Json.Str (resourceId config))
  /\ AuthMiddleware.requiredAuthMiddleware validateToken (envOf penv) req
     = AuthMiddleware.requiredAuthMiddleware validateToken' (envOf penv) req.
Proof.
  intros Hload Hagree. split; [reflexivity |].
  assert (Hr : resourceId config = ScalekitConfig.resourceId (envOf penv)).
  { unfold load in Hload.
    destruct (0 <? length (missingEnvVars penv))%nat; [discriminate |].
    injection Hload as <-. reflexivity. }
  rewrite Hr in Hagree. unfold AuthMiddleware.requiredAuthMiddleware.
  destruct (AuthMiddleware.bearerToken _) as [tok |]; [| reflexivity].
  destruct (truthy tok); [| reflexivity].
  rewrite Hagree. reflexivity.
Qed.

Lemma tokens_validated_for_advertised_resource_witness :
  Json.member "resource"
    (AuthServerPublic.handleOAuthProtectedResource Samples.sampleConfig)
  = Some (Json.Str (resourceId Samples.sampleConfig))
  /\ AuthMiddleware.requiredAuthMiddleware Scenario.acceptsGoodToken
       (envOf Samples.sampleProcessEnv)
       (Scenario.rpc Http.POST None (Some "Bearer good-token") "initialize")
     = AuthMiddleware.requiredAuthMiddleware Samples.acceptsForLocalhost
         (envOf Samples.sampleProcessEnv)
         (Scenario.rpc Http.POST None (Some "Bearer good-token")
            "initialize").
Proof.
  apply (tokens_validated_for_advertised_resource Samples.sampleProcessEnv
           Samples.sampleConfig Scenario.acceptsGoodToken
           Samples.acceptsForLocalhost).
  - reflexivity.
  - intros tok. reflexivity.
Defined.

End ConfigFacts.

(** ** The echo tool of the demo server *)

Module McpServerFacts.
Import Js McpServer.
Local Open Scope list_scope.


End McpServerFacts.
